(** * net-network-calculator: the network calculator and its command line

    A shallow embedding of [main.py].  The program is a thin layer over
    Python's standard [ipaddress] module, so the development has four
    layers:

    - [Py]: the Python built-ins the code relies on ([str.split],
      [str.join], [int], [str], [range], list indexing);
    - [ipaddress]: the functions of the standard library module that
      [main.py] reaches (CPython 3.11), for both address families, since
      [ip_address] and [ip_network] try IPv4 first and IPv6 second;
    - [NetCalc]: [calculate_network_info] and [main] themselves, with the
      log records and the lines written to the two output streams kept as
      an explicit trace of events, every list being built in full;
    - [Bounded]: the same two functions on a machine whose memory holds a
      limited number of address objects, where building the host list can
      raise [MemoryError] and the [except Exception] branch is live.

    A Python [str] is modelled by [string].  Every character test the code
    performs is against an ASCII character, so reading a [string] as the
    UTF-8 form of the Python text gives the same splits and the same
    verdicts. *)

From Stdlib Require Import ZArith List Bool Ascii String Lia.
From Stdlib Require DecimalString HexadecimalString.
Import ListNotations.

Open Scope string_scope.
Open Scope list_scope.
Open Scope Z_scope.

(* ================================================================== *)
(** * Python built-ins *)
(* ================================================================== *)

Module Py.

(** The text of a message built by an f-string or by [%]-formatting: literal
    fragments and [repr]s of strings.  [repr] is kept symbolic. *)
Inductive piece : Type :=
| Lit (s : string)
| Repr (s : string).

Definition text : Type := list piece.

(** [s.split(sep)] for a one-character separator. *)
Fixpoint split (sep : ascii) (s : string) : list string :=
  match s with
  | EmptyString => [EmptyString]
  | String c s' =>
      if Ascii.eqb c sep then EmptyString :: split sep s'
      else match split sep s' with
           | [] => [String c EmptyString]
           | p :: ps => String c p :: ps
           end
  end.

(** [sep.join(parts)]. *)
Definition join (sep : string) (parts : list string) : string :=
  String.concat sep parts.

(** [c in s] for a one-character [c]. *)
Fixpoint contains (c : ascii) (s : string) : bool :=
  match s with
  | EmptyString => false
  | String d s' => Ascii.eqb d c || contains c s'
  end.

(** [s.partition(sep)]: the part before the first [sep], whether [sep] was
    found, and the part after it. *)
Fixpoint partition (sep : ascii) (s : string) : string * bool * string :=
  match s with
  | EmptyString => (EmptyString, false, EmptyString)
  | String c s' =>
      if Ascii.eqb c sep then (EmptyString, true, s')
      else let '(h, found, t) := partition sep s' in (String c h, found, t)
  end.

Definition code (c : ascii) : Z := Z.of_N (N_of_ascii c).

Definition is_digit (c : ascii) : bool := (48 <=? code c) && (code c <=? 57).

Fixpoint all_chars (p : ascii -> bool) (s : string) : bool :=
  match s with
  | EmptyString => true
  | String c s' => p c && all_chars p s'
  end.

(** [s.isascii() and s.isdigit()]: non-empty, ASCII decimal digits only. *)
Definition isdigit (s : string) : bool :=
  negb (String.eqb s "") && all_chars is_digit s.

(** Membership in [frozenset('0123456789ABCDEFabcdef')]. *)
Definition is_hex_digit (c : ascii) : bool :=
  is_digit c
  || ((65 <=? code c) && (code c <=? 70))
  || ((97 <=? code c) && (code c <=? 102)).

Definition digit_value (c : ascii) : Z :=
  if is_digit c then code c - 48
  else if (97 <=? code c) then code c - 87
  else code c - 55.

Fixpoint int_acc (base : Z) (s : string) (acc : Z) : Z :=
  match s with
  | EmptyString => acc
  | String c s' => int_acc base s' (acc * base + digit_value c)
  end.

(** [int(s, base)] on a non-empty string of digits of that base. *)
Definition int (s : string) (base : Z) : Z := int_acc base s 0.

(** [str(n)] for an integer. *)
Definition str (n : Z) : string :=
  DecimalString.NilZero.string_of_int (Z.to_int n).

(** ['%x' % n] for a non-negative integer. *)
Definition hex (n : Z) : string :=
  HexadecimalString.NilZero.string_of_uint (N.to_hex_uint (Z.to_N n)).

Fixpoint zeros (n : nat) : string :=
  match n with
  | O => EmptyString
  | S n' => String "0" (zeros n')
  end.

(** ['%0<width>x' % n]. *)
Definition hex_padded (width : nat) (n : Z) : string :=
  let h := hex n in (zeros (width - String.length h) ++ h)%string.

(** [int.from_bytes(bs, 'big')]. *)
Definition from_bytes (bs : list Z) : Z :=
  fold_left (fun acc b => acc * 256 + b) bs 0.

(** [n.to_bytes(4, 'big')] for [0 <= n < 2**32]. *)
Definition to_bytes4 (n : Z) : list Z :=
  [Z.shiftr n 24 mod 256; Z.shiftr n 16 mod 256; Z.shiftr n 8 mod 256; n mod 256].

(** [n.bit_length()]. *)
Definition bit_length (n : Z) : Z :=
  if Z.abs n =? 0 then 0 else Z.log2 (Z.abs n) + 1.

(** [list(range(a, b))]. *)
Definition range (a b : Z) : list Z :=
  map (fun i => a + Z.of_nat i) (seq 0 (Z.to_nat (b - a))).

(** [l[i]], negative indices counting from the end; [None] is
    [IndexError]. *)
Definition getitem {A : Type} (l : list A) (i : Z) : option A :=
  let n := Z.of_nat (List.length l) in
  let j := if i <? 0 then i + n else i in
  if (0 <=? j) && (j <? n) then nth_error l (Z.to_nat j) else None.

(** [map] that stops at the first element on which [f] raises. *)
Fixpoint map_all {A B : Type} (f : A -> option B) (l : list A) : option (list B) :=
  match l with
  | [] => Some []
  | x :: l' =>
      match f x with
      | None => None
      | Some y =>
          match map_all f l' with
          | None => None
          | Some ys => Some (y :: ys)
          end
      end
  end.

End Py.

(* ================================================================== *)
(** * The standard [ipaddress] module, as far as [main.py] reaches it *)
(* ================================================================== *)

Module ipaddress.
Import Py.

(** The two exception classes the module raises on malformed input.  Both
    derive from [ValueError].  Their message texts are left out:
    [ip_address] and [ip_network], the only entry points [main.py] calls,
    catch both classes and raise a [ValueError] with a text of their own. *)
Inductive error : Type :=
| AddressValueError
| NetmaskValueError.

Definition res (A : Type) : Type := (error + A)%type.

Definition ret {A : Type} (x : A) : res A := inr x.

Definition raise {A : Type} (e : error) : res A := inl e.

Definition bind {A B : Type} (m : res A) (k : A -> res B) : res B :=
  match m with
  | inl e => inl e
  | inr x => k x
  end.

Local Notation "x <- m ;; k" := (bind m (fun x => k))
  (at level 61, m at next level, right associativity).
Local Notation "' p <- m ;; k" := (bind m (fun x => let 'p := x in k))
  (at level 61, p pattern, m at next level, right associativity).

(** ** Constants and objects *)

Inductive version : Type :=
| IPv4
| IPv6.

Definition max_prefixlen (v : version) : Z :=
  match v with
  | IPv4 => 32
  | IPv6 => 128
  end.

Definition ALL_ONES (v : version) : Z := 2 ^ max_prefixlen v - 1.

Definition HEXTET_COUNT : Z := 8.

(** An [IPv4Address] or [IPv6Address] object: the class, the integer [_ip]
    and, for IPv6 only, the zone [_scope_id]. *)
Record Address : Type := mkAddress {
  addr_version : version;
  ip : Z;
  scope_id : option string
}.

(** The address class applied to an integer.  Its range check passes for
    every integer the module itself computes. *)
Definition address_of_int (v : version) (n : Z) : Address :=
  {| addr_version := v; ip := n; scope_id := None |}.

(** ** Netmasks (class [_IPAddressBase]) *)

Definition ip_int_from_prefix (v : version) (prefixlen : Z) : Z :=
  Z.lxor (ALL_ONES v) (Z.shiftr (ALL_ONES v) prefixlen).

Definition count_righthand_zero_bits (number bits : Z) : Z :=
  if number =? 0 then bits
  else Z.min bits (bit_length (Z.land (Z.lnot number) (number - 1))).

(** [None] is the [ValueError] for a mask that mixes zeroes and ones. *)
Definition prefix_from_ip_int (v : version) (ip_int : Z) : option Z :=
  let trailing_zeroes := count_righthand_zero_bits ip_int (max_prefixlen v) in
  let prefixlen := max_prefixlen v - trailing_zeroes in
  let leading_ones := Z.shiftr ip_int trailing_zeroes in
  let all_ones := Z.shiftl 1 prefixlen - 1 in
  if negb (leading_ones =? all_ones) then None else Some prefixlen.

Definition prefix_from_prefix_string (v : version) (prefixlen_str : string) : res Z :=
  if negb (isdigit prefixlen_str) then raise NetmaskValueError
  else
    let prefixlen := int prefixlen_str 10 in
    if negb ((0 <=? prefixlen) && (prefixlen <=? max_prefixlen v))
    then raise NetmaskValueError
    else ret prefixlen.

(** ** IPv4 (class [_BaseV4]) *)

(** [None] is the [ValueError] for an octet that is not strictly a decimal
    number in [0..255]. *)
Definition parse_octet (octet_str : string) : option Z :=
  if String.eqb octet_str "" then None
  else if negb (isdigit octet_str) then None
  else if (3 <? String.length octet_str)%nat then None
  else if negb (String.eqb octet_str "0")
          && match octet_str with
             | String c _ => Ascii.eqb c "0"
             | EmptyString => false
             end
       then None
  else
    let octet_int := int octet_str 10 in
    if 255 <? octet_int then None else Some octet_int.

Definition v4_ip_int_from_string (ip_str : string) : res Z :=
  if String.eqb ip_str "" then raise AddressValueError
  else
    let octets := split "." ip_str in
    if negb (List.length octets =? 4)%nat then raise AddressValueError
    else match map_all parse_octet octets with
         | Some bs => ret (from_bytes bs)
         | None => raise AddressValueError
         end.

Definition v4_string_from_ip_int (ip_int : Z) : string :=
  join "." (map str (to_bytes4 ip_int)).

(** [IPv4Address(address)] for a string. *)
Definition IPv4Address (address : string) : res Address :=
  if contains "/" address then raise AddressValueError
  else
    n <- v4_ip_int_from_string address ;;
    ret {| addr_version := IPv4; ip := n; scope_id := None |}.

Definition prefix_from_ip_string (ip_str : string) : res Z :=
  match v4_ip_int_from_string ip_str with
  | inl _ => raise NetmaskValueError
  | inr ip_int =>
      match prefix_from_ip_int IPv4 ip_int with
      | Some prefixlen => ret prefixlen
      | None =>
          match prefix_from_ip_int IPv4 (Z.lxor ip_int (ALL_ONES IPv4)) with
          | Some prefixlen => ret prefixlen
          | None => raise NetmaskValueError
          end
      end
  end.

(** ** IPv6 (class [_BaseV6]) *)

(** [None] is the [ValueError] for a hextet that is not a hexadecimal number
    of at most four digits; [int('', 16)] raises it for the empty one. *)
Definition parse_hextet (hextet_str : string) : option Z :=
  if negb (all_chars is_hex_digit hextet_str) then None
  else if (4 <? String.length hextet_str)%nat then None
  else if String.eqb hextet_str "" then None
  else Some (int hextet_str 16).

(** The loop that looks for an empty part strictly inside [parts];
    [mid] is [parts[1:-1]] and [i] the index of its head in [parts]. *)
Fixpoint find_skip_index (i : Z) (mid : list string) (skip_index : option Z)
  : res (option Z) :=
  match mid with
  | [] => ret skip_index
  | p :: rest =>
      if String.eqb p "" then
        match skip_index with
        | Some _ => raise AddressValueError
        | None => find_skip_index (i + 1) rest (Some i)
        end
      else find_skip_index (i + 1) rest skip_index
  end.

(** The loops that fold parsed hextets into the address, sixteen bits at a
    time; [None] as soon as a hextet does not parse. *)
Fixpoint shift_in (hextets : list string) (ip_int : Z) : option Z :=
  match hextets with
  | [] => Some ip_int
  | h :: rest =>
      match parse_hextet h with
      | None => None
      | Some x => shift_in rest (Z.lor (Z.shiftl ip_int 16) x)
      end
  end.

Definition v6_ip_int_from_string (ip_str : string) : res Z :=
  if String.eqb ip_str "" then raise AddressValueError
  else
    let parts := split ":" ip_str in
    if (List.length parts <? 3)%nat then raise AddressValueError
    else
      parts <- (if contains "." (last parts "") then
                  match IPv4Address (last parts "") with
                  | inl _ => raise AddressValueError
                  | inr a =>
                      let ipv4_int := ip a in
                      ret (removelast parts
                             ++ [hex (Z.land (Z.shiftr ipv4_int 16) 65535);
                                 hex (Z.land ipv4_int 65535)])
                  end
                else ret parts) ;;
      let len := Z.of_nat (List.length parts) in
      if HEXTET_COUNT + 1 <? len then raise AddressValueError
      else
        skip_index <- find_skip_index 1 (removelast (tl parts)) None ;;
        '(parts_hi, parts_lo, parts_skipped) <-
          match skip_index with
          | Some skip_index =>
              let parts_hi := skip_index in
              let parts_lo := len - skip_index - 1 in
              parts_hi <- (if String.eqb (hd "" parts) "" then
                             if negb (parts_hi - 1 =? 0)
                             then raise AddressValueError
                             else ret (parts_hi - 1)
                           else ret parts_hi) ;;
              parts_lo <- (if String.eqb (last parts "") "" then
                             if negb (parts_lo - 1 =? 0)
                             then raise AddressValueError
                             else ret (parts_lo - 1)
                           else ret parts_lo) ;;
              let parts_skipped := HEXTET_COUNT - (parts_hi + parts_lo) in
              if parts_skipped <? 1 then raise AddressValueError
              else ret (parts_hi, parts_lo, parts_skipped)
          | None =>
              if negb (len =? HEXTET_COUNT) then raise AddressValueError
              else if String.eqb (hd "" parts) "" then raise AddressValueError
              else if String.eqb (last parts "") "" then raise AddressValueError
              else ret (len, 0, 0)
          end ;;
        match shift_in (firstn (Z.to_nat parts_hi) parts) 0 with
        | None => raise AddressValueError
        | Some ip_int =>
            match shift_in (skipn (Z.to_nat (len - parts_lo)) parts)
                           (Z.shiftl ip_int (16 * parts_skipped)) with
            | None => raise AddressValueError
            | Some ip_int => ret ip_int
            end
        end.

(** The scan of [_compress_hextets] for the longest run of ["0"] hextets;
    the state is [(best_doublecolon_start, best_doublecolon_len,
    doublecolon_start, doublecolon_len)]. *)
Fixpoint longest_zero_run (hextets : list string) (index : Z) (st : Z * Z * Z * Z)
  : Z * Z :=
  let '(best_start, best_len, start, len) := st in
  match hextets with
  | [] => (best_start, best_len)
  | hextet :: rest =>
      if String.eqb hextet "0" then
        let len := len + 1 in
        let start := if start =? -1 then index else start in
        if best_len <? len
        then longest_zero_run rest (index + 1) (start, len, start, len)
        else longest_zero_run rest (index + 1) (best_start, best_len, start, len)
      else longest_zero_run rest (index + 1) (best_start, best_len, -1, 0)
  end.

Definition compress_hextets (hextets : list string) : list string :=
  let '(best_start, best_len) := longest_zero_run hextets 0 (-1, 0, -1, 0) in
  if 1 <? best_len then
    let best_end := best_start + best_len in
    let hextets :=
      if best_end =? Z.of_nat (List.length hextets) then hextets ++ [""]
      else hextets in
    let hextets :=
      firstn (Z.to_nat best_start) hextets ++ [""]
        ++ skipn (Z.to_nat best_end) hextets in
    if best_start =? 0 then "" :: hextets else hextets
  else hextets.

Definition v6_string_from_ip_int (ip_int : Z) : string :=
  let hex_str := hex_padded 32 ip_int in
  let hextets :=
    map (fun x => hex (int (substring x 4 hex_str) 16))
        [0; 4; 8; 12; 16; 20; 24; 28]%nat in
  join ":" (compress_hextets hextets).

Definition split_scope_id (ip_str : string) : res (string * option string) :=
  let '(addr, sep, scope_id) := partition "%" ip_str in
  if negb sep then ret (addr, None)
  else if String.eqb scope_id "" || contains "%" scope_id
       then raise AddressValueError
  else ret (addr, Some scope_id).

(** [IPv6Address(address)] for a string. *)
Definition IPv6Address (address : string) : res Address :=
  if contains "/" address then raise AddressValueError
  else
    '(addr_str, scope) <- split_scope_id address ;;
    n <- v6_ip_int_from_string addr_str ;;
    ret {| addr_version := IPv6; ip := n; scope_id := scope |}.

(** ** Both families *)

(** [str(address)]. *)
Definition str_address (a : Address) : string :=
  match addr_version a with
  | IPv4 => v4_string_from_ip_int (ip a)
  | IPv6 =>
      let ip_str := v6_string_from_ip_int (ip a) in
      match scope_id a with
      | Some scope => (ip_str ++ "%" ++ scope)%string
      | None => ip_str
      end
  end.

Definition Address_of_string (v : version) (address : string) : res Address :=
  match v with
  | IPv4 => IPv4Address address
  | IPv6 => IPv6Address address
  end.

(** The mask half of a network argument: the text after the ['/'], or the
    integer [_max_prefixlen] when there is no ['/']. *)
Inductive mask_arg : Type :=
| MaskStr (s : string)
| MaskInt (n : Z).

Definition split_optional_netmask (address : string) : res (list string) :=
  let addr := split "/" address in
  if (2 <? List.length addr)%nat then raise AddressValueError else ret addr.

Definition split_addr_prefix (v : version) (address : string) : res (string * mask_arg) :=
  address <- split_optional_netmask address ;;
  match address with
  | [a; m] => ret (a, MaskStr m)
  | a :: _ => ret (a, MaskInt (max_prefixlen v))
  | [] => ret ("", MaskInt (max_prefixlen v))
  end.

(** [_make_netmask]: the netmask as an integer and the prefix length.  The
    class-level cache only memoises the pair and is left out. *)
Definition make_netmask (v : version) (arg : mask_arg) : res (Z * Z) :=
  prefixlen <-
    match arg with
    | MaskInt prefixlen =>
        if negb ((0 <=? prefixlen) && (prefixlen <=? max_prefixlen v))
        then raise NetmaskValueError
        else ret prefixlen
    | MaskStr s =>
        match v with
        | IPv4 =>
            match prefix_from_prefix_string IPv4 s with
            | inr prefixlen => ret prefixlen
            | inl NetmaskValueError => prefix_from_ip_string s
            | inl e => raise e
            end
        | IPv6 => prefix_from_prefix_string IPv6 s
        end
    end ;;
  ret (ip_int_from_prefix v prefixlen, prefixlen).

(** An [IPv4Network] or [IPv6Network] object.  [addr] is the address the
    constructor parsed, which the [hosts] of a full-length prefix returns. *)
Record Network : Type := mkNetwork {
  net_version : version;
  network_address : Address;
  netmask : Z;
  prefixlen : Z;
  addr : Address
}.

(** [IPv4Network(address, strict=False)] and
    [IPv6Network(address, strict=False)]. *)
Definition Network_of_string (v : version) (address : string) : res Network :=
  '(addr_str, mask) <- split_addr_prefix v address ;;
  a <- Address_of_string v addr_str ;;
  '(netmask, prefixlen) <- make_netmask v mask ;;
  let packed := ip a in
  let network_address :=
    if negb (Z.land packed netmask =? packed)
    then address_of_int v (Z.land packed netmask)
    else a in
  ret {| net_version := v; network_address := network_address;
         netmask := netmask; prefixlen := prefixlen; addr := a |}.

Definition hostmask (n : Network) : Z :=
  Z.lxor (netmask n) (ALL_ONES (net_version n)).

Definition broadcast_address (n : Network) : Address :=
  address_of_int (net_version n) (Z.lor (ip (network_address n)) (hostmask n)).

Definition num_addresses (n : Network) : Z :=
  ip (broadcast_address n) - ip (network_address n) + 1.

(** [list(network)], the [__iter__] of a network. *)
Definition iter (n : Network) : list Address :=
  map (address_of_int (net_version n))
      (range (ip (network_address n)) (ip (broadcast_address n) + 1)).

(** [list(network.hosts())].  The constructor replaces [hosts] for the two
    longest prefixes; otherwise IPv4 leaves out the network and the
    broadcast address and IPv6 only the first address.  The list is the
    mathematical one; the limit of memory that CPython meets on a list of
    2^32 or 2^96 addresses is the subject of [Bounded]. *)
Definition hosts (n : Network) : list Address :=
  let v := net_version n in
  if prefixlen n =? max_prefixlen v - 1 then iter n
  else if prefixlen n =? max_prefixlen v then [addr n]
  else
    match v with
    | IPv4 =>
        map (address_of_int v)
            (range (ip (network_address n) + 1) (ip (broadcast_address n)))
    | IPv6 =>
        map (address_of_int v)
            (range (ip (network_address n) + 1) (ip (broadcast_address n) + 1))
    end.

(** ** Entry points *)

(** [ip_address(address)]; [inl msg] is [raise ValueError(msg)]. *)
Definition ip_address (address : string) : text + Address :=
  match IPv4Address address with
  | inr a => inr a
  | inl _ =>
      match IPv6Address address with
      | inr a => inr a
      | inl _ =>
          inl [Repr address; Lit " does not appear to be an IPv4 or IPv6 address"]
      end
  end.

(** [ip_network(address, strict=False)]; [inl msg] is
    [raise ValueError(msg)]. *)
Definition ip_network (address : string) : text + Network :=
  match Network_of_string IPv4 address with
  | inr n => inr n
  | inl _ =>
      match Network_of_string IPv6 address with
      | inr n => inr n
      | inl _ =>
          inl [Repr address; Lit " does not appear to be an IPv4 or IPv6 network"]
      end
  end.

End ipaddress.

(* ================================================================== *)
(** * [main.py] *)
(* ================================================================== *)

Module NetCalc.
Import Py.

(** The dictionary [calculate_network_info] returns: always the same five
    keys. *)
Record network_info : Type := mkInfo {
  network_address : string;
  broadcast_address : string;
  first_usable_host : string;
  last_usable_host : string;
  total_hosts : Z
}.

(** What the program emits.  [logging.basicConfig] installs a handler that
    formats each record with a time stamp and writes it to standard error;
    the record is kept apart from the lines [print] writes there. *)
Inductive event : Type :=
| LogError (msg : text)
| LogException (msg : text)
| Stderr (line : text)
| Stdout (line : string).

(** The exceptions that can reach the handlers of
    [calculate_network_info]. *)
Inductive exception : Type :=
| ValueError (msg : text)
| IndexError.

Definition exception_text (e : exception) : text :=
  match e with
  | ValueError msg => msg
  | IndexError => [Lit "list index out of range"]
  end.

Definition NOT_APPLICABLE : string := "N/A (Network too small)".

(** The [try] block of [calculate_network_info]. *)
Definition try_calculate (ip_address : string) (cidr_mask : Z)
  : exception + network_info :=
  if negb ((0 <=? cidr_mask) && (cidr_mask <=? 32)) then
    inl (ValueError [Lit "CIDR mask must be between 0 and 32."])
  else
    match ipaddress.ip_network (ip_address ++ "/" ++ str cidr_mask)%string with
    | inl msg => inl (ValueError msg)
    | inr network =>
        let network_address :=
          ipaddress.str_address (ipaddress.network_address network) in
        let broadcast_address :=
          ipaddress.str_address (ipaddress.broadcast_address network) in
        let usable :=
          if 2 <? ipaddress.num_addresses network then
            match getitem (ipaddress.hosts network) 0 with
            | None => inl IndexError
            | Some first =>
                match getitem (ipaddress.hosts network) (-1) with
                | None => inl IndexError
                | Some last =>
                    inr (ipaddress.str_address first, ipaddress.str_address last)
                end
            end
          else inr (NOT_APPLICABLE, NOT_APPLICABLE) in
        match usable with
        | inl e => inl e
        | inr (first_usable_host, last_usable_host) =>
            let total_hosts := ipaddress.num_addresses network in
            inr {| network_address := network_address;
                   broadcast_address := broadcast_address;
                   first_usable_host := first_usable_host;
                   last_usable_host := last_usable_host;
                   total_hosts := total_hosts |}
        end
    end.

(** [calculate_network_info]: the value returned ([None] on an error) and
    the events emitted on the way. *)
Definition calculate_network_info (ip_address : string) (cidr_mask : Z)
  : option network_info * list event :=
  match try_calculate ip_address cidr_mask with
  | inr info => (Some info, [])
  | inl (ValueError e) =>
      (None, [LogError (Lit "Invalid input: " :: e);
              Stderr (Lit "Error: " :: e)])
  | inl e =>
      (None, [LogException (Lit "An unexpected error occurred: " :: exception_text e);
              Stderr (Lit "Error: An unexpected error occurred: " :: exception_text e)])
  end.

(** [main] after [parser.parse_args()]: the two arguments are the address
    text and the mask already converted by [type=int].  The result is the
    exit status of the process and the events emitted. *)
Definition main (ip_address : string) (cidr_mask : Z) : Z * list event :=
  match ipaddress.ip_address ip_address with
  | inl e =>
      (1, [LogError (Lit "Invalid IP address format: " :: e);
           Stderr (Lit "Error: Invalid IP address format: " :: e)])
  | inr _ =>
      match calculate_network_info ip_address cidr_mask with
      | (Some network_info, events) =>
          (0, events ++
              [Stdout ("Network Address:   " ++ network_address network_info);
               Stdout ("Broadcast Address: " ++ broadcast_address network_info);
               Stdout ("First Usable Host: " ++ first_usable_host network_info);
               Stdout ("Last Usable Host:  " ++ last_usable_host network_info);
               Stdout ("Total Hosts:       " ++ str (total_hosts network_info))])
      | (None, events) => (1, events)
      end
  end.

End NetCalc.

(* ================================================================== *)
(** * [main.py] on a machine with bounded memory *)
(* ================================================================== *)

(** [NetCalc] reads [list(network.hosts())] as the mathematical list.
    CPython builds it element by element and raises [MemoryError] when the
    machine cannot hold it; [calculate_network_info] catches that in its
    [except Exception] branch.  Here the machine is a parameter: [capacity]
    is the largest number of address objects a list can hold on it. *)
Module Bounded.
Import Py.

(** The exceptions that can reach the handlers of
    [calculate_network_info]. *)
Inductive exception : Type :=
| ValueError (msg : text)
| IndexError
| MemoryError.

(** [str(e)]; a [MemoryError] raised by the allocator carries no text. *)
Definition exception_text (e : exception) : text :=
  match e with
  | ValueError msg => msg
  | IndexError => [Lit "list index out of range"]
  | MemoryError => []
  end.

(** [list(items)] on a machine that holds at most [capacity] elements. *)
Definition list_of {A : Type} (capacity : Z) (items : list A) : exception + list A :=
  if Z.of_nat (List.length items) <=? capacity then inr items else inl MemoryError.

(** The [try] block of [calculate_network_info].  The host list is built
    twice, once for each index; the first list is released once indexed, so
    the second one meets the same [capacity]. *)
Definition try_calculate (capacity : Z) (ip_address : string) (cidr_mask : Z)
  : exception + NetCalc.network_info :=
  if negb ((0 <=? cidr_mask) && (cidr_mask <=? 32)) then
    inl (ValueError [Lit "CIDR mask must be between 0 and 32."])
  else
    match ipaddress.ip_network (ip_address ++ "/" ++ str cidr_mask)%string with
    | inl msg => inl (ValueError msg)
    | inr network =>
        let network_address :=
          ipaddress.str_address (ipaddress.network_address network) in
        let broadcast_address :=
          ipaddress.str_address (ipaddress.broadcast_address network) in
        let usable :=
          if 2 <? ipaddress.num_addresses network then
            match list_of capacity (ipaddress.hosts network) with
            | inl e => inl e
            | inr hosts_first =>
                match getitem hosts_first 0 with
                | None => inl IndexError
                | Some first =>
                    match list_of capacity (ipaddress.hosts network) with
                    | inl e => inl e
                    | inr hosts_last =>
                        match getitem hosts_last (-1) with
                        | None => inl IndexError
                        | Some last =>
                            inr (ipaddress.str_address first,
                                 ipaddress.str_address last)
                        end
                    end
                end
            end
          else inr (NetCalc.NOT_APPLICABLE, NetCalc.NOT_APPLICABLE) in
        match usable with
        | inl e => inl e
        | inr (first_usable_host, last_usable_host) =>
            let total_hosts := ipaddress.num_addresses network in
            inr {| NetCalc.network_address := network_address;
                   NetCalc.broadcast_address := broadcast_address;
                   NetCalc.first_usable_host := first_usable_host;
                   NetCalc.last_usable_host := last_usable_host;
                   NetCalc.total_hosts := total_hosts |}
        end
    end.

(** [calculate_network_info]: the value returned ([None] on an error) and
    the events emitted on the way. *)
Definition calculate_network_info (capacity : Z) (ip_address : string) (cidr_mask : Z)
  : option NetCalc.network_info * list NetCalc.event :=
  match try_calculate capacity ip_address cidr_mask with
  | inr info => (Some info, [])
  | inl (ValueError e) =>
      (None, [NetCalc.LogError (Lit "Invalid input: " :: e);
              NetCalc.Stderr (Lit "Error: " :: e)])
  | inl e =>
      (None,
       [NetCalc.LogException
          (Lit "An unexpected error occurred: " :: exception_text e);
        NetCalc.Stderr
          (Lit "Error: An unexpected error occurred: " :: exception_text e)])
  end.

(** [main] after [parser.parse_args()] has returned the two arguments: the
    exit status of the process and the events emitted. *)
Definition main (capacity : Z) (ip_address : string) (cidr_mask : Z)
  : Z * list NetCalc.event :=
  match ipaddress.ip_address ip_address with
  | inl e =>
      (1, [NetCalc.LogError (Lit "Invalid IP address format: " :: e);
           NetCalc.Stderr (Lit "Error: Invalid IP address format: " :: e)])
  | inr _ =>
      match calculate_network_info capacity ip_address cidr_mask with
      | (Some network_info, events) =>
          (0, events ++
              [NetCalc.Stdout
                 ("Network Address:   " ++ NetCalc.network_address network_info);
               NetCalc.Stdout
                 ("Broadcast Address: " ++ NetCalc.broadcast_address network_info);
               NetCalc.Stdout
                 ("First Usable Host: " ++ NetCalc.first_usable_host network_info);
               NetCalc.Stdout
                 ("Last Usable Host:  " ++ NetCalc.last_usable_host network_info);
               NetCalc.Stdout
                 ("Total Hosts:       " ++ str (NetCalc.total_hosts network_info))])
      | (None, events) => (1, events)
      end
  end.

End Bounded.

(* ================================================================== *)
(** * Vocabulary of the statements *)
(* ================================================================== *)

Section Vocabulary.

Import Py ipaddress NetCalc.

(** The characters [is_digit] accepts. *)
Definition digit_chars : list ascii :=
  ["0"; "1"; "2"; "3"; "4"; "5"; "6"; "7"; "8"; "9"]%char.

(** All strings of exactly [n] decimal digits. *)
Fixpoint digit_strings (n : nat) : list string :=
  match n with
  | O => [EmptyString]
  | S n' => flat_map (fun c => map (String c) (digit_strings n')) digit_chars
  end.

(** Test run on every digit string of length one to three: if it parses as
    an octet, it is the decimal text of a value in [0, 255]. *)
Definition octet_ok (o : string) : bool :=
  match parse_octet o with
  | Some b => String.eqb o (str b) && (0 <=? b) && (b <=? 255)
  | None => true
  end.

(** Test run on every byte: its decimal text parses back to it and holds
    no dot, slash or space. *)
Definition byte_ok (b : Z) : bool :=
  match parse_octet (str b) with
  | Some b' => (b' =? b)
  | None => false
  end
  && negb (contains "." (str b))
  && negb (contains "/" (str b))
  && negb (contains " " (str b))
  && negb (String.eqb (str b) "").

(** The complement of a mask within the width of its family. *)
Definition complement (v : version) (m : Z) : Z :=
  Z.land (Z.lnot m) (Z.ones (max_prefixlen v)).

(** Test run on every prefix length: the netmask and its hostmask are
    disjoint, fill the width together, and the hostmask is the complement
    of the netmask, of value 2^(width - p) - 1. *)
Definition mask_ok (v : version) (p : Z) : bool :=
  let m := ip_int_from_prefix v p in
  let h := Z.lxor m (ALL_ONES v) in
  (Z.land m h =? 0)
  && (h =? 2 ^ (max_prefixlen v - p) - 1)
  && (h =? complement v m)
  && (m + h =? ALL_ONES v)
  && (0 <=? m).

(** Test run on every prefix length in [0, 32]: its decimal text is read
    back as a prefix length by both families and holds no slash, and more
    than two addresses means a prefix length of at most 30. *)
Definition prefix_ok (p : Z) : bool :=
  match prefix_from_prefix_string IPv4 (str p),
        prefix_from_prefix_string IPv6 (str p) with
  | inr p4, inr p6 => (p4 =? p) && (p6 =? p)
  | _, _ => false
  end
  && negb (contains "/" (str p))
  && mask_ok IPv4 p && mask_ok IPv6 p
  && Bool.eqb (2 <? 2 ^ (32 - p)) (p <=? 30).

(** The text of the error raised for a prefix length outside [0, 32]. *)
Definition CIDR_RANGE : text := [Lit "CIDR mask must be between 0 and 32."].

(** A well-formed address text in the words of the specification: four
    decimal octets in [0, 255] joined by dots and nothing else.  [str]
    prints without sign, padding or spaces. *)
Definition dotted_quad (s : string) : Prop :=
  exists b0 b1 b2 b3 : Z,
    0 <= b0 <= 255 /\ 0 <= b1 <= 255 /\ 0 <= b2 <= 255 /\ 0 <= b3 <= 255
    /\ s = (str b0 ++ "." ++ str b1 ++ "." ++ str b2 ++ "." ++ str b3)%string.

(** The record for the address [n] and the prefix length [p], in closed
    form. *)
Definition v4_record (n p : Z) : network_info :=
  let net := Z.land n (ip_int_from_prefix IPv4 p) in
  let bcast := net + (2 ^ (32 - p) - 1) in
  {| network_address := v4_string_from_ip_int net;
     broadcast_address := v4_string_from_ip_int bcast;
     first_usable_host :=
       if p <=? 30 then v4_string_from_ip_int (net + 1) else NOT_APPLICABLE;
     last_usable_host :=
       if p <=? 30 then v4_string_from_ip_int (bcast - 1) else NOT_APPLICABLE;
     total_hosts := 2 ^ (32 - p) |}.

(** The five lines [main] prints for a record. *)
Definition report (info : network_info) : list event :=
  [Stdout ("Network Address:   " ++ network_address info);
   Stdout ("Broadcast Address: " ++ broadcast_address info);
   Stdout ("First Usable Host: " ++ first_usable_host info);
   Stdout ("Last Usable Host:  " ++ last_usable_host info);
   Stdout ("Total Hosts:       " ++ str (total_hosts info))].

(** What the specification calls failing with an invalid-address-format
    error: exit status 1, one error record and one line on standard error
    that name the address, nothing on standard output. *)
Definition address_format_failure (s : string) : Z * list event :=
  (1,
   [LogError [Lit "Invalid IP address format: "; Repr s;
              Lit " does not appear to be an IPv4 or IPv6 address"];
    Stderr [Lit "Error: Invalid IP address format: "; Repr s;
            Lit " does not appear to be an IPv4 or IPv6 address"]]).

(** Conjunction of a test over [count] consecutive integers from [z]. *)
Fixpoint forallb_from (P : Z -> bool) (z : Z) (count : nat) : bool :=
  match count with
  | O => true
  | S c => P z && forallb_from P (z + 1) c
  end.

(** Test run on every 16-bit value: its ['%x'] text is not empty and is read
    back as the same hextet. *)
Definition hextet_ok (x : Z) : bool :=
  match parse_hextet (hex x) with
  | Some y => y =? x
  | None => false
  end
  && negb (String.eqb (hex x) "").

(** Test run on every byte: its decimal text holds no colon and no percent
    sign. *)
Definition byte_plain (b : Z) : bool :=
  negb (contains ":" (str b)) && negb (contains "%" (str b)).

(** What a run emits when building the host list exhausts the memory: the
    record of [logging.exception] and the line on standard error, both with
    the empty text of the [MemoryError]. *)
Definition memory_failure : list event :=
  [LogException [Lit "An unexpected error occurred: "];
   Stderr [Lit "Error: An unexpected error occurred: "]].

End Vocabulary.

(* ================================================================== *)
(** * Facts about the built-ins *)
(* ================================================================== *)

Section Enumeration.

(** A boolean test that holds on [0 .. n-1] by evaluation holds on every
    integer of that interval. *)
Lemma forall_below (P : Z -> bool) (n : nat) :
  forallb P (map Z.of_nat (seq 0 n)) = true ->
  forall z, 0 <= z < Z.of_nat n -> P z = true.
Proof.
  intros Hall z Hz.
  rewrite forallb_forall in Hall.
  apply Hall, in_map_iff.
  exists (Z.to_nat z); split; [lia|].
  apply in_seq; lia.
Qed.

End Enumeration.

Section Strings.

Import Py.

Lemma contains_app c s t :
  contains c (s ++ t)%string = contains c s || contains c t.
Proof.
  induction s as [|d s IH]; simpl; [reflexivity|].
  now rewrite IH, orb_assoc.
Qed.

Lemma split_not_nil sep s : split sep s <> [].
Proof.
  destruct s as [|c s]; simpl; [discriminate|].
  destruct (Ascii.eqb c sep); [discriminate|].
  destruct (split sep s); discriminate.
Qed.

Lemma split_without sep s :
  contains sep s = false -> split sep s = [s].
Proof.
  induction s as [|c s IH]; simpl; [reflexivity|].
  intros H. apply orb_false_elim in H as [Hc Hs].
  rewrite Hc, (IH Hs). reflexivity.
Qed.

Lemma split_app sep s t :
  contains sep s = false ->
  split sep (s ++ String sep t)%string = s :: split sep t.
Proof.
  induction s as [|c s IH]; simpl.
  - intros _. now rewrite Ascii.eqb_refl.
  - intros H. apply orb_false_elim in H as [Hc Hs].
    rewrite Hc, (IH Hs). reflexivity.
Qed.

(** When the text before the separator contains one itself, there are at
    least three parts once another separator follows. *)
Lemma split_length_with sep s :
  contains sep s = true -> (2 <= List.length (split sep s))%nat.
Proof.
  induction s as [|c s IH]; simpl; [discriminate|].
  destruct (Ascii.eqb c sep) eqn:Hc; simpl.
  - intros _. pose proof (split_not_nil sep s).
    destruct (split sep s); [contradiction|simpl; lia].
  - intros Hs. specialize (IH Hs).
    destruct (split sep s); simpl in *; lia.
Qed.

Lemma split_length_app sep s t :
  (List.length (split sep (s ++ String sep t)%string)
   = List.length (split sep s) + List.length (split sep t))%nat.
Proof.
  induction s as [|c s IH]; simpl.
  - now rewrite Ascii.eqb_refl.
  - destruct (Ascii.eqb c sep); simpl.
    + now rewrite IH.
    + pose proof (split_not_nil sep (s ++ String sep t)%string).
      pose proof (split_not_nil sep s).
      destruct (split sep (s ++ String sep t)%string) eqn:E1; [contradiction|].
      destruct (split sep s) eqn:E2; [contradiction|].
      simpl in *. lia.
Qed.

Lemma join_split sep s : join (String sep "") (split sep s) = s.
Proof.
  induction s as [|c s IH]; simpl; [reflexivity|].
  unfold join in *.
  destruct (Ascii.eqb c sep) eqn:Hc.
  - apply Ascii.eqb_eq in Hc; subst c.
    pose proof (split_not_nil sep s).
    destruct (split sep s) eqn:E; [contradiction|].
    simpl. simpl in IH. now rewrite IH.
  - pose proof (split_not_nil sep s).
    destruct (split sep s) as [|p ps] eqn:E; [contradiction|].
    destruct ps as [|q ps]; simpl in *.
    + now subst.
    + now rewrite <- IH.
Qed.

Lemma contains_join c sep l :
  contains c sep = false ->
  Forall (fun p => contains c p = false) l ->
  contains c (join sep l) = false.
Proof.
  intros Hsep Hl. unfold join.
  induction Hl as [|p l Hp Hl IH]; simpl; [reflexivity|].
  destruct l as [|q l]; [exact Hp|].
  now rewrite !contains_app, Hp, Hsep, IH.
Qed.

End Strings.

Section Lists.

Import Py.

Lemma range_length a b : List.length (range a b) = Z.to_nat (b - a).
Proof. unfold range. now rewrite length_map, length_seq. Qed.

Lemma getitem_first {A B : Type} (f : A -> B) (l : list A) (d : A) :
  l <> [] -> getitem (map f l) 0 = Some (f (hd d l)).
Proof.
  destruct l as [|x l]; [contradiction|]. intros _.
  unfold getitem. simpl List.length.
  replace (0 <? 0) with false by reflexivity.
  replace (0 <=? 0) with true by reflexivity.
  replace (0 <? Z.of_nat (S (List.length (map f l)))) with true
    by (symmetry; apply Z.ltb_lt; lia).
  reflexivity.
Qed.

Lemma getitem_last {A B : Type} (f : A -> B) (l : list A) (d : A) :
  l <> [] -> getitem (map f l) (-1) = Some (f (List.last l d)).
Proof.
  intros Hl. unfold getitem.
  replace (-1 <? 0) with true by reflexivity.
  rewrite length_map.
  assert (0 < Z.of_nat (List.length l)) by (destruct l; [contradiction|simpl; lia]).
  replace (0 <=? -1 + Z.of_nat (List.length l)) with true
    by (symmetry; apply Z.leb_le; lia).
  replace (-1 + Z.of_nat (List.length l) <? Z.of_nat (List.length l)) with true
    by (symmetry; apply Z.ltb_lt; lia).
  simpl andb. cbv iota.
  replace (Z.to_nat (-1 + Z.of_nat (List.length l))) with (List.length l - 1)%nat by lia.
  rewrite nth_error_map.
  destruct (exists_last Hl) as [l' [x ->]].
  rewrite last_last, length_app. simpl.
  replace (List.length l' + 1 - 1)%nat with (List.length l') by lia.
  rewrite nth_error_app2, Nat.sub_diag by lia. reflexivity.
Qed.

Lemma range_not_nil a b : a < b -> range a b <> [].
Proof.
  intros H E. apply (f_equal (@List.length Z)) in E.
  rewrite range_length in E. simpl in E. lia.
Qed.

Lemma range_hd a b : a < b -> hd 0 (range a b) = a.
Proof.
  intros H. unfold range.
  destruct (Z.to_nat (b - a)) eqn:E; [lia|]. simpl. lia.
Qed.

Lemma range_last a b : a < b -> List.last (range a b) 0 = b - 1.
Proof.
  intros H. unfold range.
  destruct (Z.to_nat (b - a)) as [|n] eqn:E; [lia|].
  replace (S n) with (n + 1)%nat by lia.
  rewrite seq_app, map_app. simpl. rewrite last_last. lia.
Qed.

(** First and last element of [list(map(f, range(a, b)))] when the range is
    not empty. *)
Lemma getitem_range_first {B : Type} (f : Z -> B) a b :
  a < b -> getitem (map f (range a b)) 0 = Some (f a).
Proof.
  intros H. rewrite (getitem_first f _ 0) by now apply range_not_nil.
  now rewrite range_hd.
Qed.

Lemma getitem_range_last {B : Type} (f : Z -> B) a b :
  a < b -> getitem (map f (range a b)) (-1) = Some (f (b - 1)).
Proof.
  intros H. rewrite (getitem_last f _ 0) by now apply range_not_nil.
  now rewrite range_last.
Qed.

Lemma getitem_not_nil {A : Type} (l : list A) (i : Z) :
  l <> [] -> i = 0 \/ i = -1 -> getitem l i <> None.
Proof.
  intros Hl Hi.
  assert (0 < Z.of_nat (List.length l)) by (destruct l; [contradiction|simpl; lia]).
  unfold getitem.
  destruct Hi as [-> | ->].
  - replace (0 <? 0) with false by reflexivity.
    replace (0 <=? 0) with true by reflexivity.
    replace (0 <? Z.of_nat (List.length l)) with true by (symmetry; apply Z.ltb_lt; lia).
    simpl. destruct l; [contradiction|discriminate].
  - replace (-1 <? 0) with true by reflexivity.
    replace (0 <=? -1 + Z.of_nat (List.length l)) with true
      by (symmetry; apply Z.leb_le; lia).
    replace (-1 + Z.of_nat (List.length l) <? Z.of_nat (List.length l)) with true
      by (symmetry; apply Z.ltb_lt; lia).
    cbn [andb]. apply nth_error_Some. lia.
Qed.

End Lists.

(* ================================================================== *)
(** * IPv4 text: parsing and printing are inverse to each other *)
(* ================================================================== *)

Section DottedDecimal.

Import Py ipaddress.

Lemma is_digit_chars c : is_digit c = true -> In c digit_chars.
Proof.
  intros H.
  assert (E : existsb (Ascii.eqb c) digit_chars = true).
  { revert H. destruct c as [[] [] [] [] [] [] [] []];
      vm_compute; exact (fun H => H). }
  apply existsb_exists in E as [d [Hd E]].
  apply Ascii.eqb_eq in E. now subst.
Qed.

Lemma digit_strings_complete s :
  all_chars is_digit s = true -> In s (digit_strings (String.length s)).
Proof.
  induction s as [|c s IH]; [intros _; now left|].
  cbn [all_chars String.length digit_strings].
  intros H. apply andb_prop in H as [Hc Hs].
  apply in_flat_map. exists c. split; [now apply is_digit_chars|].
  apply in_map, IH, Hs.
Qed.

Lemma octet_strings_ok :
  forallb octet_ok (digit_strings 1 ++ digit_strings 2 ++ digit_strings 3) = true.
Proof. vm_compute. reflexivity. Qed.

(** An octet that parses is the decimal text of its value: no sign, no
    leading zero, no other character. *)
Lemma parse_octet_canonical o b :
  parse_octet o = Some b -> o = str b /\ 0 <= b <= 255.
Proof.
  intros H.
  assert (Hin : In o (digit_strings 1 ++ digit_strings 2 ++ digit_strings 3)).
  { unfold parse_octet in H.
    destruct (String.eqb o "") eqn:E0; [discriminate|].
    destruct (isdigit o) eqn:Ed; [|discriminate].
    destruct (3 <? String.length o)%nat eqn:El; [discriminate|].
    apply Nat.ltb_ge in El.
    unfold isdigit in Ed. apply andb_prop in Ed as [_ Ed].
    apply digit_strings_complete in Ed.
    destruct o as [|c1 [|c2 [|c3 [|c4 o]]]]; simpl in El.
    - discriminate.
    - apply in_or_app; left; exact Ed.
    - apply in_or_app; right; apply in_or_app; left; exact Ed.
    - apply in_or_app; right; apply in_or_app; right; exact Ed.
    - lia. }
  pose proof octet_strings_ok as Hall.
  rewrite forallb_forall in Hall. specialize (Hall o Hin).
  unfold octet_ok in Hall. rewrite H in Hall.
  apply andb_prop in Hall as [Hall H255]. apply andb_prop in Hall as [Heq H0].
  apply String.eqb_eq in Heq. apply Z.leb_le in H0, H255. auto.
Qed.

Lemma bytes_ok : forallb byte_ok (map Z.of_nat (seq 0 256)) = true.
Proof. vm_compute. reflexivity. Qed.

Lemma byte_facts b :
  0 <= b < 256 ->
  parse_octet (str b) = Some b
  /\ contains "." (str b) = false
  /\ contains "/" (str b) = false
  /\ contains " " (str b) = false
  /\ str b <> "".
Proof.
  intros Hb. pose proof (forall_below byte_ok 256 bytes_ok b Hb) as H.
  unfold byte_ok in H.
  repeat (apply andb_prop in H as [H ?]).
  destruct (parse_octet (str b)) as [b'|]; [|discriminate].
  apply Z.eqb_eq in H. subst b'.
  repeat match goal with
         | H : negb _ = true |- _ => apply negb_true_iff in H
         end.
  repeat split; auto.
  now apply String.eqb_neq.
Qed.

Lemma to_bytes4_range n : Forall (fun b => 0 <= b < 256) (to_bytes4 n).
Proof.
  unfold to_bytes4.
  repeat constructor; apply Z.mod_pos_bound; lia.
Qed.

Lemma from_bytes4 b0 b1 b2 b3 :
  from_bytes [b0; b1; b2; b3] = ((b0 * 256 + b1) * 256 + b2) * 256 + b3.
Proof. unfold from_bytes. simpl. lia. Qed.

Lemma from_to_bytes4 n : 0 <= n < 2 ^ 32 -> from_bytes (to_bytes4 n) = n.
Proof.
  intros Hn. unfold to_bytes4. rewrite from_bytes4.
  rewrite !Z.shiftr_div_pow2 by lia.
  change (2 ^ 24) with 16777216. change (2 ^ 16) with 65536.
  change (2 ^ 8) with 256. change (2 ^ 32) with 4294967296 in Hn.
  Z.div_mod_to_equations. lia.
Qed.

Lemma to_from_bytes4 b0 b1 b2 b3 :
  0 <= b0 < 256 -> 0 <= b1 < 256 -> 0 <= b2 < 256 -> 0 <= b3 < 256 ->
  to_bytes4 (from_bytes [b0; b1; b2; b3]) = [b0; b1; b2; b3]
  /\ 0 <= from_bytes [b0; b1; b2; b3] < 2 ^ 32.
Proof.
  intros H0 H1 H2 H3. rewrite from_bytes4. unfold to_bytes4.
  rewrite !Z.shiftr_div_pow2 by lia.
  change (2 ^ 24) with 16777216. change (2 ^ 16) with 65536.
  change (2 ^ 8) with 256. change (2 ^ 32) with 4294967296.
  split; [|lia].
  repeat f_equal; Z.div_mod_to_equations; lia.
Qed.

Lemma v4_string_unfold n :
  v4_string_from_ip_int n =
  (str (Z.shiftr n 24 mod 256) ++ String "."
     (str (Z.shiftr n 16 mod 256) ++ String "."
        (str (Z.shiftr n 8 mod 256) ++ String "." (str (n mod 256)))))%string.
Proof. reflexivity. Qed.

Lemma v4_string_no_char c n :
  (forall b, 0 <= b < 256 -> contains c (str b) = false) ->
  contains c "." = false ->
  contains c (v4_string_from_ip_int n) = false.
Proof.
  intros Hb Hdot. unfold v4_string_from_ip_int.
  apply contains_join; [exact Hdot|].
  apply Forall_map.
  eapply Forall_impl; [|apply to_bytes4_range].
  intros b Hr. now apply Hb.
Qed.

Lemma v4_string_not_empty n : v4_string_from_ip_int n <> "".
Proof.
  rewrite v4_string_unfold.
  destruct (byte_facts (Z.shiftr n 24 mod 256)) as (_ & _ & _ & _ & Hne).
  { apply Z.mod_pos_bound; lia. }
  destruct (str (Z.shiftr n 24 mod 256)); [contradiction|discriminate].
Qed.

(** Parsing the dotted-decimal text of a 32-bit integer gives it back. *)
Lemma v4_parse_print n :
  0 <= n < 2 ^ 32 ->
  v4_ip_int_from_string (v4_string_from_ip_int n) = inr n.
Proof.
  intros Hn. unfold v4_ip_int_from_string.
  destruct (String.eqb (v4_string_from_ip_int n) "") eqn:E.
  { apply String.eqb_eq in E. now apply v4_string_not_empty in E. }
  rewrite v4_string_unfold.
  pose proof (to_bytes4_range n) as Hr. unfold to_bytes4 in Hr.
  inversion Hr as [|? ? R0 Hr1]; subst. inversion Hr1 as [|? ? R1 Hr2]; subst.
  inversion Hr2 as [|? ? R2 Hr3]; subst. inversion Hr3 as [|? ? R3 _]; subst.
  destruct (byte_facts _ R0) as (P0 & D0 & _).
  destruct (byte_facts _ R1) as (P1 & D1 & _).
  destruct (byte_facts _ R2) as (P2 & D2 & _).
  destruct (byte_facts _ R3) as (P3 & D3 & _).
  rewrite (split_app _ _ _ D0), (split_app _ _ _ D1), (split_app _ _ _ D2),
    (split_without _ _ D3).
  cbn [List.length Nat.eqb negb map_all].
  rewrite P0, P1, P2, P3.
  unfold ret. f_equal. now apply from_to_bytes4.
Qed.

Lemma IPv4Address_print n :
  0 <= n < 2 ^ 32 ->
  IPv4Address (v4_string_from_ip_int n) = inr (address_of_int IPv4 n).
Proof.
  intros Hn. unfold IPv4Address.
  rewrite v4_string_no_char, v4_parse_print by
    (auto; intros b Hb; now destruct (byte_facts b Hb) as (_ & _ & ? & _)).
  reflexivity.
Qed.

(** A text that [IPv4Address] accepts is the dotted-decimal text of the
    integer it yields. *)
Lemma IPv4Address_canonical s a :
  IPv4Address s = inr a ->
  0 <= ip a < 2 ^ 32
  /\ a = address_of_int IPv4 (ip a)
  /\ s = v4_string_from_ip_int (ip a)
  /\ contains "/" s = false.
Proof.
  unfold IPv4Address. destruct (contains "/" s) eqn:Hslash; [discriminate|].
  unfold v4_ip_int_from_string, bind, ret, raise.
  destruct (String.eqb s ""); [discriminate|].
  pose proof (join_split "." s) as Hjoin.
  destruct (split "." s) as [|o0 [|o1 [|o2 [|o3 [|o4 os]]]]];
    cbn [List.length Nat.eqb negb]; try discriminate.
  cbn [map_all].
  destruct (parse_octet o0) as [b0|] eqn:P0; [|discriminate].
  destruct (parse_octet o1) as [b1|] eqn:P1; [|discriminate].
  destruct (parse_octet o2) as [b2|] eqn:P2; [|discriminate].
  destruct (parse_octet o3) as [b3|] eqn:P3; [|discriminate].
  intros H. inversion H; subst a; clear H. cbn [ip].
  apply parse_octet_canonical in P0 as [-> R0], P1 as [-> R1],
    P2 as [-> R2], P3 as [-> R3].
  destruct (to_from_bytes4 b0 b1 b2 b3) as [Hb Hrange]; try lia.
  repeat split; try (apply Hrange); auto.
  unfold v4_string_from_ip_int. rewrite Hb. now rewrite <- Hjoin.
Qed.

End DottedDecimal.

(* ================================================================== *)
(** * Netmasks and networks *)
(* ================================================================== *)

Section Netmasks.

Import Py ipaddress.

Lemma prefixes_ok : forallb prefix_ok (map Z.of_nat (seq 0 33)) = true.
Proof. vm_compute. reflexivity. Qed.

Lemma mask_facts_of v p :
  mask_ok v p = true ->
  let m := ip_int_from_prefix v p in
  let h := Z.lxor m (ALL_ONES v) in
  Z.land m h = 0
  /\ h = 2 ^ (max_prefixlen v - p) - 1
  /\ h = complement v m
  /\ m + h = ALL_ONES v
  /\ 0 <= m.
Proof.
  unfold mask_ok. intros H. cbv zeta.
  repeat (apply andb_prop in H as [H ?]).
  repeat match goal with
         | H : (_ =? _) = true |- _ => apply Z.eqb_eq in H
         | H : (_ <=? _) = true |- _ => apply Z.leb_le in H
         end.
  auto.
Qed.

Lemma prefix_facts p :
  0 <= p <= 32 ->
  (forall v, prefix_from_prefix_string v (str p) = inr p)
  /\ contains "/" (str p) = false
  /\ (forall v, mask_ok v p = true)
  /\ (2 <? 2 ^ (32 - p)) = (p <=? 30).
Proof.
  intros Hp.
  assert (H : prefix_ok p = true)
    by (apply (forall_below prefix_ok 33 prefixes_ok); simpl; lia).
  unfold prefix_ok in H.
  repeat (apply andb_prop in H as [H ?]).
  destruct (prefix_from_prefix_string IPv4 (str p)) as [|p4] eqn:E4; [discriminate|].
  destruct (prefix_from_prefix_string IPv6 (str p)) as [|p6] eqn:E6; [discriminate|].
  apply andb_prop in H as [H4 H6]. apply Z.eqb_eq in H4, H6. subst p4 p6.
  repeat split.
  - intros []; assumption.
  - now apply negb_true_iff.
  - intros []; assumption.
  - now apply Bool.eqb_prop.
Qed.

(** The netmask of prefix length [p]: the top [p] of the 32 bits are set and
    no other bit is. *)
Lemma v4_netmask_bits p i :
  0 <= p <= 32 -> 0 <= i ->
  Z.testbit (ip_int_from_prefix IPv4 p) i = (32 - p <=? i) && (i <? 32).
Proof.
  intros Hp Hi. unfold ip_int_from_prefix.
  change (ALL_ONES IPv4) with (Z.ones 32).
  rewrite Z.lxor_spec, Z.shiftr_spec by lia.
  rewrite !Z.testbit_ones_nonneg by lia.
  destruct (Z.ltb_spec i 32), (Z.ltb_spec (i + p) 32), (Z.leb_spec (32 - p) i);
    simpl; try reflexivity; lia.
Qed.

(** With a hostmask disjoint from the netmask, or-ing the hostmask onto a
    masked address adds it. *)
Lemma lor_hostmask x m h :
  Z.land m h = 0 -> Z.lor (Z.land x m) h = Z.land x m + h.
Proof.
  intros Hmh.
  assert (H0 : Z.land (Z.land x m) h = 0)
    by (now rewrite <- Z.land_assoc, Hmh, Z.land_0_r).
  now rewrite (Z.add_nocarry_lxor _ _ H0), (Z.lxor_lor _ _ H0).
Qed.

(** A masked address is at most the address and keeps its sign. *)
Lemma land_mask_range x m : 0 <= x -> 0 <= m -> 0 <= Z.land x m <= x.
Proof.
  intros Hx Hm. split; [apply Z.land_nonneg; auto|].
  destruct (Z.eq_dec x 0) as [->|Hne]; [now rewrite Z.land_0_l|].
  rewrite <- (Z.lor_ldiff_and x m) at 2.
  assert (Hd : 0 <= Z.ldiff x m) by (apply Z.ldiff_nonneg; auto).
  assert (Hl : 0 <= Z.land x m) by (apply Z.land_nonneg; auto).
  assert (H0 : Z.land (Z.ldiff x m) (Z.land x m) = 0).
  { apply Z.bits_inj'. intros i Hi.
    rewrite Z.land_spec, Z.ldiff_spec, Z.land_spec, Z.bits_0.
    destruct (Z.testbit x i), (Z.testbit m i); reflexivity. }
  rewrite <- (Z.lxor_lor _ _ H0), <- (Z.add_nocarry_lxor _ _ H0). lia.
Qed.

End Netmasks.

Section Networks.

Import Py ipaddress.

Lemma split_addr_prefix_ok v s p :
  contains "/" s = false -> 0 <= p <= 32 ->
  split_addr_prefix v (s ++ "/" ++ str p)%string = inr (s, MaskStr (str p)).
Proof.
  intros Hs Hp. destruct (prefix_facts p Hp) as (_ & Hslash & _).
  unfold split_addr_prefix, split_optional_netmask.
  change ("/" ++ str p)%string with (String "/" (str p)).
  rewrite (split_app _ _ _ Hs), (split_without _ _ Hslash).
  reflexivity.
Qed.

Lemma split_addr_prefix_slash v s t :
  contains "/" s = true ->
  split_addr_prefix v (s ++ "/" ++ t)%string = inl AddressValueError.
Proof.
  intros Hs. unfold split_addr_prefix, split_optional_netmask.
  change ("/" ++ t)%string with (String "/" t).
  pose proof (split_length_app "/" s t) as Hlen.
  pose proof (split_length_with "/" s Hs).
  pose proof (split_not_nil "/" t).
  assert (2 < List.length (split "/" (s ++ String "/" t)%string))%nat as Hlt.
  { destruct (split "/" t); [contradiction|]. simpl in Hlen. lia. }
  apply Nat.ltb_lt in Hlt. now rewrite Hlt.
Qed.

Lemma make_netmask_ok v p :
  0 <= p <= 32 ->
  make_netmask v (MaskStr (str p)) = inr (ip_int_from_prefix v p, p).
Proof.
  intros Hp. destruct (prefix_facts p Hp) as (Hpre & _).
  unfold make_netmask. destruct v; now rewrite Hpre.
Qed.

(** The network object built from an address text that one family accepts
    and a prefix length in [0, 32]. *)
Lemma Network_of_string_ok v s a p :
  Address_of_string v s = inr a -> contains "/" s = false -> 0 <= p <= 32 ->
  Network_of_string v (s ++ "/" ++ str p)%string =
  inr {| net_version := v;
         network_address :=
           if negb (Z.land (ip a) (ip_int_from_prefix v p) =? ip a)
           then address_of_int v (Z.land (ip a) (ip_int_from_prefix v p))
           else a;
         netmask := ip_int_from_prefix v p;
         prefixlen := p;
         addr := a |}.
Proof.
  intros Ha Hs Hp. unfold Network_of_string.
  rewrite (split_addr_prefix_ok v s p Hs Hp). cbn [bind].
  rewrite Ha. cbn [bind]. rewrite (make_netmask_ok v p Hp). reflexivity.
Qed.

Lemma Network_of_string_fail v s e p :
  Address_of_string v s = inl e -> 0 <= p <= 32 ->
  exists e', Network_of_string v (s ++ "/" ++ str p)%string = inl e'.
Proof.
  intros Ha Hp. unfold Network_of_string.
  destruct (contains "/" s) eqn:Hs.
  - rewrite (split_addr_prefix_slash v s _ Hs). now eexists.
  - rewrite (split_addr_prefix_ok v s p Hs Hp). cbn [bind].
    rewrite Ha. now eexists.
Qed.

Lemma IPv6Address_no_slash s a :
  IPv6Address s = inr a -> contains "/" s = false /\ addr_version a = IPv6.
Proof.
  unfold IPv6Address. destruct (contains "/" s); [discriminate|].
  intros H. split; [reflexivity|].
  unfold bind in H.
  destruct (split_scope_id s) as [|[addr_str scope]]; [discriminate|].
  destruct (v6_ip_int_from_string addr_str); [discriminate|].
  inversion H. reflexivity.
Qed.

(** The network of an IPv4 address text and a prefix length in [0, 32]. *)
Lemma ip_network_v4 s a p :
  IPv4Address s = inr a -> 0 <= p <= 32 ->
  ip_network (s ++ "/" ++ str p)%string =
  inr {| net_version := IPv4;
         network_address :=
           address_of_int IPv4 (Z.land (ip a) (ip_int_from_prefix IPv4 p));
         netmask := ip_int_from_prefix IPv4 p;
         prefixlen := p;
         addr := a |}.
Proof.
  intros Ha Hp.
  destruct (IPv4Address_canonical s a Ha) as (_ & Hrec & _ & Hs).
  unfold ip_network.
  rewrite (Network_of_string_ok IPv4 s a p Ha Hs Hp).
  do 2 f_equal.
  destruct (Z.eqb_spec (Z.land (ip a) (ip_int_from_prefix IPv4 p)) (ip a)) as [E|E];
    cbn [negb]; [|reflexivity].
  rewrite E. exact Hrec.
Qed.

(** The network of an address text that only IPv6 accepts. *)
Lemma ip_network_v6 s e a p :
  IPv4Address s = inl e -> IPv6Address s = inr a -> 0 <= p <= 32 ->
  ip_network (s ++ "/" ++ str p)%string =
  inr {| net_version := IPv6;
         network_address :=
           if negb (Z.land (ip a) (ip_int_from_prefix IPv6 p) =? ip a)
           then address_of_int IPv6 (Z.land (ip a) (ip_int_from_prefix IPv6 p))
           else a;
         netmask := ip_int_from_prefix IPv6 p;
         prefixlen := p;
         addr := a |}.
Proof.
  intros H4 H6 Hp.
  destruct (IPv6Address_no_slash s a H6) as [Hs _].
  unfold ip_network.
  destruct (Network_of_string_fail IPv4 s e p H4 Hp) as [e' ->].
  now rewrite (Network_of_string_ok IPv6 s a p H6 Hs Hp).
Qed.

(** No network for a text that neither family accepts. *)
Lemma ip_network_fail s e4 e6 p :
  IPv4Address s = inl e4 -> IPv6Address s = inl e6 -> 0 <= p <= 32 ->
  ip_network (s ++ "/" ++ str p)%string =
  inl [Repr (s ++ "/" ++ str p)%string;
       Lit " does not appear to be an IPv4 or IPv6 network"].
Proof.
  intros H4 H6 Hp. unfold ip_network.
  destruct (Network_of_string_fail IPv4 s e4 p H4 Hp) as [e' ->].
  destruct (Network_of_string_fail IPv6 s e6 p H6 Hp) as [e'' ->].
  reflexivity.
Qed.

(** [ip_address] accepts exactly the texts one of the two families
    accepts. *)
Lemma ip_address_inr s a :
  ip_address s = inr a <->
  IPv4Address s = inr a
  \/ ((exists e, IPv4Address s = inl e) /\ IPv6Address s = inr a).
Proof.
  unfold ip_address.
  destruct (IPv4Address s) as [e4|a4]; [destruct (IPv6Address s) as [e6|a6]|].
  - split; [discriminate|]. intros [H|[_ H]]; discriminate.
  - split; [intros H; right; split; [now eexists|congruence]|].
    intros [H|[_ H]]; [discriminate|congruence].
  - split; [intros H; left; congruence|].
    intros [H|[[e H] _]]; [congruence|discriminate].
Qed.

Lemma ip_address_inl s msg :
  ip_address s = inl msg <->
  (exists e4 e6, IPv4Address s = inl e4 /\ IPv6Address s = inl e6)
  /\ msg = [Repr s; Lit " does not appear to be an IPv4 or IPv6 address"].
Proof.
  unfold ip_address.
  destruct (IPv4Address s) as [e4|a4]; [destruct (IPv6Address s) as [e6|a6]|].
  - split.
    + intros H. inversion H. split; [now do 2 eexists|reflexivity].
    + intros [_ ->]. reflexivity.
  - split; [discriminate|]. intros [(? & ? & _ & H) _]. discriminate.
  - split; [discriminate|]. intros [(? & ? & H & _) _]. discriminate.
Qed.

End Networks.

(* ================================================================== *)
(** * The printed form of an address is never the marker *)
(* ================================================================== *)

Section Printed.

Import Py ipaddress.

Lemma hex_uint_no_space d :
  contains " " (HexadecimalString.NilEmpty.string_of_uint d) = false.
Proof. induction d; simpl; auto. Qed.

Lemma hex_no_space n : contains " " (hex n) = false.
Proof.
  unfold hex, HexadecimalString.NilZero.string_of_uint.
  destruct (N.to_hex_uint (Z.to_N n)) eqn:E; try reflexivity;
    rewrite <- E; apply hex_uint_no_space.
Qed.

Lemma Forall_firstn_skipn {A : Type} (P : A -> Prop) (n : nat) (l : list A) :
  Forall P l -> Forall P (firstn n l) /\ Forall P (skipn n l).
Proof.
  intros H. rewrite <- (firstn_skipn n l) in H. now apply Forall_app in H.
Qed.

Lemma compress_hextets_Forall (P : string -> Prop) hextets :
  P "" -> Forall P hextets -> Forall P (compress_hextets hextets).
Proof.
  intros Hempty Hall. unfold compress_hextets.
  destruct (longest_zero_run hextets 0 (-1, 0, -1, 0)) as [best_start best_len].
  destruct (1 <? best_len); [|exact Hall].
  assert (Hall' : Forall P (if best_start + best_len =? Z.of_nat (List.length hextets)
                            then hextets ++ [""] else hextets)).
  { destruct (_ =? _); [|exact Hall].
    apply Forall_app; split; [exact Hall|now constructor]. }
  assert (Hres : Forall P
            (firstn (Z.to_nat best_start)
               (if best_start + best_len =? Z.of_nat (List.length hextets)
                then hextets ++ [""] else hextets)
             ++ [""]
             ++ skipn (Z.to_nat (best_start + best_len))
                  (if best_start + best_len =? Z.of_nat (List.length hextets)
                   then hextets ++ [""] else hextets))).
  { apply Forall_app; split; [now apply Forall_firstn_skipn|].
    apply Forall_app; split; [now constructor|now apply Forall_firstn_skipn]. }
  destruct (best_start =? 0); [constructor; assumption|exact Hres].
Qed.

Lemma v6_string_no_space n : contains " " (v6_string_from_ip_int n) = false.
Proof.
  unfold v6_string_from_ip_int.
  apply contains_join; [reflexivity|].
  apply compress_hextets_Forall; [reflexivity|].
  apply Forall_map, Forall_forall. intros x _. apply hex_no_space.
Qed.

Lemma v4_string_no_space n : contains " " (v4_string_from_ip_int n) = false.
Proof.
  apply v4_string_no_char; [|reflexivity].
  intros b Hb. now destruct (byte_facts b Hb) as (_ & _ & _ & ? & _).
Qed.

(** The marker contains a space and no ['%']; the text of an address has no
    space before the zone, which a ['%'] introduces. *)
Lemma str_address_not_marker a : str_address a <> NetCalc.NOT_APPLICABLE.
Proof.
  intros E. unfold str_address in E.
  destruct (addr_version a).
  - apply (f_equal (contains " ")) in E.
    rewrite v4_string_no_space in E. discriminate.
  - destruct (scope_id a) as [scope|].
    + apply (f_equal (contains "%")) in E.
      rewrite contains_app in E.
      change (contains "%" ("%" ++ scope)%string) with true in E.
      rewrite orb_true_r in E. discriminate.
    + apply (f_equal (contains " ")) in E.
      rewrite v6_string_no_space in E. discriminate.
Qed.

End Printed.

(* ================================================================== *)
(** * What [calculate_network_info] computes *)
(* ================================================================== *)

Section Calculation.

Import Py ipaddress NetCalc.

Lemma try_calculate_bad_prefix s p :
  p < 0 \/ 32 < p -> try_calculate s p = inl (ValueError CIDR_RANGE).
Proof.
  intros Hp. unfold try_calculate.
  replace ((0 <=? p) && (p <=? 32)) with false; [reflexivity|].
  symmetry. apply andb_false_iff.
  destruct Hp; [left; apply Z.leb_gt|right; apply Z.leb_gt]; lia.
Qed.

Lemma prefix_guard p : 0 <= p <= 32 -> negb ((0 <=? p) && (p <=? 32)) = false.
Proof.
  intros Hp. apply negb_false_iff, andb_true_iff.
  split; apply Z.leb_le; lia.
Qed.

(** Whenever a network has more than two addresses its host list is not
    empty, so neither index can fail. *)
Lemma hosts_not_nil n : 2 < num_addresses n -> hosts n <> [].
Proof.
  unfold num_addresses, hosts. intros Hnum.
  destruct (prefixlen n =? max_prefixlen (net_version n) - 1).
  { unfold iter. intros E. apply map_eq_nil in E. revert E.
    apply range_not_nil. lia. }
  destruct (prefixlen n =? max_prefixlen (net_version n)); [discriminate|].
  destruct (net_version n); intros E; apply map_eq_nil in E; revert E;
    apply range_not_nil; lia.
Qed.

Lemma try_calculate_no_IndexError s p : try_calculate s p <> inl IndexError.
Proof.
  unfold try_calculate.
  destruct (negb _); [discriminate|].
  destruct (ip_network _) as [msg|n]; [discriminate|].
  destruct (2 <? num_addresses n) eqn:Hnum; [|discriminate].
  apply Z.ltb_lt, hosts_not_nil in Hnum.
  pose proof (getitem_not_nil (hosts n) 0 Hnum (or_introl eq_refl)).
  pose proof (getitem_not_nil (hosts n) (-1) Hnum (or_intror eq_refl)).
  destruct (getitem (hosts n) 0); [|contradiction].
  destruct (getitem (hosts n) (-1)); [|contradiction].
  discriminate.
Qed.

(** The record computed for an IPv4 address text and a prefix length in
    [0, 32], in closed form. *)
Lemma try_calculate_v4 s a p :
  IPv4Address s = inr a -> 0 <= p <= 32 ->
  try_calculate s p =
  inr {| network_address :=
           v4_string_from_ip_int (Z.land (ip a) (ip_int_from_prefix IPv4 p));
         broadcast_address :=
           v4_string_from_ip_int
             (Z.land (ip a) (ip_int_from_prefix IPv4 p) + (2 ^ (32 - p) - 1));
         first_usable_host :=
           if p <=? 30
           then v4_string_from_ip_int
                  (Z.land (ip a) (ip_int_from_prefix IPv4 p) + 1)
           else NOT_APPLICABLE;
         last_usable_host :=
           if p <=? 30
           then v4_string_from_ip_int
                  (Z.land (ip a) (ip_int_from_prefix IPv4 p) + (2 ^ (32 - p) - 1) - 1)
           else NOT_APPLICABLE;
         total_hosts := 2 ^ (32 - p) |}.
Proof.
  intros Ha Hp. unfold try_calculate.
  rewrite (prefix_guard p Hp), (ip_network_v4 s a p Ha Hp).
  destruct (prefix_facts p Hp) as (_ & _ & Hmask & Hsmall).
  destruct (mask_facts_of IPv4 p (Hmask IPv4)) as (Hdisj & Hh & _).
  cbv zeta in Hdisj, Hh.
  set (m := ip_int_from_prefix IPv4 p) in *.
  unfold hosts, iter, num_addresses, ipaddress.broadcast_address, hostmask.
  cbn [ipaddress.network_address netmask net_version prefixlen addr ip address_of_int].
  rewrite (lor_hostmask (ip a) m _ Hdisj).
  set (net := Z.land (ip a) m).
  rewrite Hh. change (max_prefixlen IPv4) with 32.
  replace (net + (2 ^ (32 - p) - 1) - net + 1) with (2 ^ (32 - p)) by lia.
  rewrite Hsmall.
  destruct (Z.leb_spec p 30) as [Hle|Hgt]; [|reflexivity].
  destruct (Z.eqb_spec p (32 - 1)); [lia|].
  destruct (Z.eqb_spec p 32); [lia|].
  assert (Hpow : 2 < 2 ^ (32 - p)) by (now apply Z.ltb_lt).
  rewrite getitem_range_first, getitem_range_last by lia.
  unfold str_address. cbn [addr_version address_of_int ip].
  reflexivity.
Qed.

(** The record computed for an address text that only IPv6 accepts. *)
Lemma try_calculate_v6 s e a p :
  IPv4Address s = inl e -> IPv6Address s = inr a -> 0 <= p <= 32 ->
  exists net first last : Address,
    try_calculate s p =
    inr {| network_address := str_address net;
           broadcast_address :=
             str_address (address_of_int IPv6 (ip net + (2 ^ (128 - p) - 1)));
           first_usable_host := str_address first;
           last_usable_host := str_address last;
           total_hosts := 2 ^ (128 - p) |}.
Proof.
  intros H4 H6 Hp. unfold try_calculate.
  rewrite (prefix_guard p Hp), (ip_network_v6 s e a p H4 H6 Hp).
  destruct (prefix_facts p Hp) as (_ & _ & Hmask & _).
  destruct (mask_facts_of IPv6 p (Hmask IPv6)) as (Hdisj & Hh & _).
  cbv zeta in Hdisj, Hh.
  set (m := ip_int_from_prefix IPv6 p) in *.
  set (na := if negb (Z.land (ip a) m =? ip a)
             then address_of_int IPv6 (Z.land (ip a) m) else a).
  assert (Hna : ip na = Z.land (ip a) m).
  { unfold na. destruct (Z.eqb_spec (Z.land (ip a) m) (ip a)) as [E|E];
      cbn [negb]; [now rewrite E|reflexivity]. }
  unfold hosts, iter, num_addresses, ipaddress.broadcast_address, hostmask.
  cbn [ipaddress.network_address netmask net_version prefixlen addr ip address_of_int].
  rewrite Hna, (lor_hostmask (ip a) m _ Hdisj), <- Hna, Hh.
  change (max_prefixlen IPv6) with 128.
  replace (ip na + (2 ^ (128 - p) - 1) - ip na + 1) with (2 ^ (128 - p)) by lia.
  assert (Hpow : 2 ^ 1 < 2 ^ (128 - p)) by (apply Z.pow_lt_mono_r; lia).
  change (2 ^ 1) with 2 in Hpow.
  destruct (Z.ltb_spec 2 (2 ^ (128 - p))); [|lia].
  destruct (Z.eqb_spec p (128 - 1)); [lia|].
  destruct (Z.eqb_spec p 128); [lia|].
  rewrite getitem_range_first, getitem_range_last by lia.
  now exists na, (address_of_int IPv6 (ip na + 1)),
    (address_of_int IPv6 (ip na + (2 ^ (128 - p) - 1) + 1 - 1)).
Qed.

(** No record for a text that neither family accepts. *)
Lemma try_calculate_bad_address s e4 e6 p :
  IPv4Address s = inl e4 -> IPv6Address s = inl e6 -> 0 <= p <= 32 ->
  try_calculate s p =
  inl (ValueError [Repr (s ++ "/" ++ str p)%string;
                   Lit " does not appear to be an IPv4 or IPv6 network"]).
Proof.
  intros H4 H6 Hp. unfold try_calculate.
  now rewrite (prefix_guard p Hp), (ip_network_fail s e4 e6 p H4 H6 Hp).
Qed.

End Calculation.

(* ================================================================== *)
(** * The program on well-formed IPv4 input *)
(* ================================================================== *)

Section Program.

Import Py ipaddress NetCalc.

(** [IPv4Address] accepts exactly the well-formed texts. *)
Lemma dotted_quad_IPv4Address s :
  dotted_quad s <-> exists a, IPv4Address s = inr a.
Proof.
  split.
  - intros (b0 & b1 & b2 & b3 & H0 & H1 & H2 & H3 & ->).
    destruct (to_from_bytes4 b0 b1 b2 b3) as [Hb Hr]; try lia.
    exists (address_of_int IPv4 (from_bytes [b0; b1; b2; b3])).
    rewrite <- (IPv4Address_print _ Hr).
    unfold v4_string_from_ip_int. now rewrite Hb.
  - intros [a Ha].
    destruct (IPv4Address_canonical s a Ha) as (_ & _ & Hs & _).
    exists (Z.shiftr (ip a) 24 mod 256), (Z.shiftr (ip a) 16 mod 256),
      (Z.shiftr (ip a) 8 mod 256), (ip a mod 256).
    pose proof (Z.mod_pos_bound (Z.shiftr (ip a) 24) 256).
    pose proof (Z.mod_pos_bound (Z.shiftr (ip a) 16) 256).
    pose proof (Z.mod_pos_bound (Z.shiftr (ip a) 8) 256).
    pose proof (Z.mod_pos_bound (ip a) 256).
    repeat split; try lia. exact Hs.
Qed.

Lemma calculate_v4 s a p :
  IPv4Address s = inr a -> 0 <= p <= 32 ->
  calculate_network_info s p = (Some (v4_record (ip a) p), []).
Proof.
  intros Ha Hp. unfold calculate_network_info.
  now rewrite (try_calculate_v4 s a p Ha Hp).
Qed.

Lemma calculate_bad_prefix s p :
  p < 0 \/ 32 < p ->
  calculate_network_info s p =
  (None, [LogError (Lit "Invalid input: " :: CIDR_RANGE);
          Stderr (Lit "Error: " :: CIDR_RANGE)]).
Proof.
  intros Hp. unfold calculate_network_info.
  now rewrite (try_calculate_bad_prefix s p Hp).
Qed.

Lemma calculate_bad_address s e4 e6 p :
  IPv4Address s = inl e4 -> IPv6Address s = inl e6 -> 0 <= p <= 32 ->
  calculate_network_info s p =
  (None,
   [LogError [Lit "Invalid input: "; Repr (s ++ "/" ++ str p)%string;
              Lit " does not appear to be an IPv4 or IPv6 network"];
    Stderr [Lit "Error: "; Repr (s ++ "/" ++ str p)%string;
            Lit " does not appear to be an IPv4 or IPv6 network"]]).
Proof.
  intros H4 H6 Hp. unfold calculate_network_info.
  now rewrite (try_calculate_bad_address s e4 e6 p H4 H6 Hp).
Qed.

Lemma main_v4 s a p :
  IPv4Address s = inr a -> 0 <= p <= 32 ->
  main s p = (0, report (v4_record (ip a) p)).
Proof.
  intros Ha Hp. unfold main, ip_address.
  now rewrite Ha, (calculate_v4 s a p Ha Hp).
Qed.

Lemma main_bad_address s e4 e6 p :
  IPv4Address s = inl e4 -> IPv6Address s = inl e6 ->
  main s p =
  (1,
   [LogError [Lit "Invalid IP address format: "; Repr s;
              Lit " does not appear to be an IPv4 or IPv6 address"];
    Stderr [Lit "Error: Invalid IP address format: "; Repr s;
            Lit " does not appear to be an IPv4 or IPv6 address"]]).
Proof.
  intros H4 H6. unfold main, ip_address. now rewrite H4, H6.
Qed.

Lemma main_bad_prefix s a p :
  ip_address s = inr a -> p < 0 \/ 32 < p ->
  main s p =
  (1, [LogError (Lit "Invalid input: " :: CIDR_RANGE);
       Stderr (Lit "Error: " :: CIDR_RANGE)]).
Proof.
  intros Ha Hp. unfold main.
  now rewrite Ha, (calculate_bad_prefix s p Hp).
Qed.

(** Range of the network and broadcast integers of an IPv4 network. *)
Lemma v4_network_range n p :
  0 <= n < 2 ^ 32 -> 0 <= p <= 32 ->
  let net := Z.land n (ip_int_from_prefix IPv4 p) in
  0 <= net /\ net <= n /\ net + (2 ^ (32 - p) - 1) < 2 ^ 32
  /\ 0 < 2 ^ (32 - p)
  /\ net + (2 ^ (32 - p) - 1) = Z.lor net (complement IPv4 (ip_int_from_prefix IPv4 p))
  /\ Z.land net (complement IPv4 (ip_int_from_prefix IPv4 p)) = 0.
Proof.
  intros Hn Hp net.
  destruct (prefix_facts p Hp) as (_ & _ & Hmask & _).
  destruct (mask_facts_of IPv4 p (Hmask IPv4)) as (Hdisj & Hh & Hc & Hsum & Hm).
  cbv zeta in Hdisj, Hh, Hc, Hsum, Hm.
  rewrite Hh in Hdisj, Hc, Hsum.
  change (max_prefixlen IPv4) with 32 in Hdisj, Hc, Hsum.
  change (ALL_ONES IPv4) with (2 ^ 32 - 1) in Hsum.
  set (m := ip_int_from_prefix IPv4 p) in *.
  destruct (land_mask_range n m) as [Hnet0 Hnetn]; try lia.
  assert (Hnetm : net <= m).
  { unfold net. rewrite Z.land_comm. apply land_mask_range; lia. }
  assert (Hpos : 0 < 2 ^ (32 - p)) by (apply Z.pow_pos_nonneg; lia).
  repeat split; try assumption.
  - lia.
  - rewrite <- Hc. unfold net. now rewrite lor_hostmask.
  - rewrite <- Hc. unfold net.
    now rewrite <- Z.land_assoc, Hdisj, Z.land_0_r.
Qed.

End Program.

(* ================================================================== *)
(** * Properties of the calculator *)
(* ================================================================== *)

Section Claims.

Import Py ipaddress NetCalc.

Lemma v4_record_same_network n n' p :
  Z.land n (ip_int_from_prefix IPv4 p) = Z.land n' (ip_int_from_prefix IPv4 p) ->
  v4_record n p = v4_record n' p.
Proof. intros E. unfold v4_record. cbv zeta. now rewrite E. Qed.

Lemma small_network p :
  0 <= p <= 32 -> (2 < 2 ^ (32 - p) <-> p <= 30).
Proof.
  intros Hp. destruct (prefix_facts p Hp) as (_ & _ & _ & Hsmall).
  rewrite <- Z.ltb_lt, Hsmall. apply Z.leb_le.
Qed.

(** C5. For every integer prefix length outside [0, 32] the calculation
    fails with the invalid-prefix-length error whatever the address text is,
    so before the address is looked at, and the process exits with status 1
    and nothing on standard output; when the address text passed the
    validation of [main], that error is all the program emits. *)
Theorem prefix_out_of_range_rejected (s : string) (p : Z) :
  p < 0 \/ 32 < p ->
  calculate_network_info s p =
    (None, [LogError (Lit "Invalid input: " :: CIDR_RANGE);
            Stderr (Lit "Error: " :: CIDR_RANGE)])
  /\ fst (main s p) = 1
  /\ (forall line, ~ In (Stdout line) (snd (main s p)))
  /\ (forall a, ip_address s = inr a ->
       main s p =
       (1, [LogError (Lit "Invalid input: " :: CIDR_RANGE);
            Stderr (Lit "Error: " :: CIDR_RANGE)])).
Proof.
  intros Hp.
  split; [now apply calculate_bad_prefix|].
  assert (Hmain : forall a, ip_address s = inr a ->
            main s p =
            (1, [LogError (Lit "Invalid input: " :: CIDR_RANGE);
                 Stderr (Lit "Error: " :: CIDR_RANGE)]))
    by (intros a Ha; now apply (main_bad_prefix s a p)).
  destruct (ip_address s) as [msg|a] eqn:Ha.
  - unfold main. rewrite Ha. cbn [fst snd].
    split; [reflexivity|]. split; [|discriminate].
    intros line [H|[H|[]]]; discriminate.
  - rewrite (Hmain a eq_refl). cbn [fst snd].
    split; [reflexivity|]. split; [|intros; reflexivity].
    intros line [H|[H|[]]]; discriminate.
Qed.

Lemma prefix_out_of_range_rejected_witness :
  (33 < 0 \/ 32 < 33)
  /\ calculate_network_info "192.168.1.1" 33 =
       (None, [LogError (Lit "Invalid input: " :: CIDR_RANGE);
               Stderr (Lit "Error: " :: CIDR_RANGE)])
  /\ fst (main "192.168.1.1" 33) = 1
  /\ (forall line, ~ In (Stdout line) (snd (main "192.168.1.1" 33)))
  /\ (forall a, ip_address "192.168.1.1" = inr a ->
       main "192.168.1.1" 33 =
       (1, [LogError (Lit "Invalid input: " :: CIDR_RANGE);
            Stderr (Lit "Error: " :: CIDR_RANGE)])).
Proof.
  split; [right; lia|].
  apply (prefix_out_of_range_rejected "192.168.1.1" 33). right; lia.
Defined.

(** C7, as the code has it.  Both failure kinds give the same return value
    [None]; they differ only in the text written to the log and to standard
    error: the fixed prefix-length text for a prefix length outside
    [0, 32], and otherwise, for an address text neither family accepts, a
    text naming the rejected network. *)
Theorem failures_return_none (s : string) (p : Z) :
  (p < 0 \/ 32 < p ->
   calculate_network_info s p =
   (None, [LogError (Lit "Invalid input: " :: CIDR_RANGE);
           Stderr (Lit "Error: " :: CIDR_RANGE)]))
  /\ (0 <= p <= 32 -> forall msg, ip_address s = inl msg ->
      calculate_network_info s p =
      (None,
       [LogError [Lit "Invalid input: "; Repr (s ++ "/" ++ str p)%string;
                  Lit " does not appear to be an IPv4 or IPv6 network"];
        Stderr [Lit "Error: "; Repr (s ++ "/" ++ str p)%string;
                Lit " does not appear to be an IPv4 or IPv6 network"]])).
Proof.
  split; [now apply calculate_bad_prefix|].
  intros Hp msg Hs.
  apply ip_address_inl in Hs as [(e4 & e6 & H4 & H6) _].
  now apply (calculate_bad_address s e4 e6).
Qed.

Lemma failures_return_none_witness :
  (32 < 33)
  /\ calculate_network_info "192.168.1.1" 33 =
     (None, [LogError (Lit "Invalid input: " :: CIDR_RANGE);
             Stderr (Lit "Error: " :: CIDR_RANGE)])
  /\ 0 <= 24 <= 32
  /\ ip_address "999.1.1.1" =
     inl [Repr "999.1.1.1"; Lit " does not appear to be an IPv4 or IPv6 address"]
  /\ calculate_network_info "999.1.1.1" 24 =
     (None,
      [LogError [Lit "Invalid input: "; Repr ("999.1.1.1" ++ "/" ++ str 24)%string;
                 Lit " does not appear to be an IPv4 or IPv6 network"];
       Stderr [Lit "Error: "; Repr ("999.1.1.1" ++ "/" ++ str 24)%string;
               Lit " does not appear to be an IPv4 or IPv6 network"]]).
Proof.
  split; [lia|].
  split; [apply (proj1 (failures_return_none "192.168.1.1" 33)); right; lia|].
  split; [lia|].
  split; [vm_compute; reflexivity|].
  refine (proj2 (failures_return_none "999.1.1.1" 24) _
            [Repr "999.1.1.1"; Lit " does not appear to be an IPv4 or IPv6 address"] _);
    [lia|vm_compute; reflexivity].
Defined.

(** C7 as stated fails: a malformed address and an out-of-range prefix
    length give the same return value, so nothing computed from the value
    returned tells the two failures apart. *)
Lemma failure_kinds_share_return_value :
  ~ exists classify : option network_info -> bool,
      classify (fst (calculate_network_info "999.1.1.1" 24)) = true
      /\ classify (fst (calculate_network_info "192.168.1.1" 33)) = false.
Proof.
  intros (classify & Ha & Hp).
  change (fst (calculate_network_info "192.168.1.1" 33)) with (@None network_info) in Hp.
  replace (fst (calculate_network_info "999.1.1.1" 24)) with (@None network_info) in Ha
    by (vm_compute; reflexivity).
  congruence.
Qed.

(** C8 as stated fails: on a failing input the calculation itself writes to
    the log and to standard error. *)
Lemma failing_calculation_writes_to_stderr :
  snd (calculate_network_info "192.168.1.1" 33) =
    [LogError (Lit "Invalid input: " :: CIDR_RANGE);
     Stderr (Lit "Error: " :: CIDR_RANGE)]
  /\ snd (calculate_network_info "192.168.1.1" 33) <> [].
Proof. split; [reflexivity|discriminate]. Qed.

(** C9. For the address "192.168.1.0" and the prefix length 24 the program
    reports network address 192.168.1.0, broadcast address 192.168.1.255,
    first usable host 192.168.1.1, last usable host 192.168.1.254 and 256
    hosts in total. *)
Theorem example_192_168_1_0_slash_24 :
  calculate_network_info "192.168.1.0" 24 =
    (Some {| network_address := "192.168.1.0";
             broadcast_address := "192.168.1.255";
             first_usable_host := "192.168.1.1";
             last_usable_host := "192.168.1.254";
             total_hosts := 256 |}, [])
  /\ main "192.168.1.0" 24 =
     (0, [Stdout "Network Address:   192.168.1.0";
          Stdout "Broadcast Address: 192.168.1.255";
          Stdout "First Usable Host: 192.168.1.1";
          Stdout "Last Usable Host:  192.168.1.254";
          Stdout "Total Hosts:       256"]).
Proof. split; vm_compute; reflexivity. Qed.

(** C10. On every input the calculation returns either a failure or a
    record with all five fields; in a record the first-usable-host field is
    the not-applicable marker exactly when the last-usable-host field is,
    and exactly when the total host count is at most 2. *)
Theorem record_complete_and_markers_agree (s : string) (p : Z) :
  fst (calculate_network_info s p) = None
  \/ exists net bcast first last total,
       calculate_network_info s p =
       (Some {| network_address := net;
                broadcast_address := bcast;
                first_usable_host := first;
                last_usable_host := last;
                total_hosts := total |}, [])
       /\ (first = NOT_APPLICABLE <-> last = NOT_APPLICABLE)
       /\ (first = NOT_APPLICABLE <-> total <= 2).
Proof.
  destruct (Z.le_gt_cases 0 p) as [Hp0|Hp0];
    [destruct (Z.le_gt_cases p 32) as [Hp32|Hp32]|].
  2, 3: left; rewrite calculate_bad_prefix by lia; reflexivity.
  assert (Hp : 0 <= p <= 32) by lia.
  destruct (IPv4Address s) as [e4|a4] eqn:E4.
  - destruct (IPv6Address s) as [e6|a6] eqn:E6.
    + left. now rewrite (calculate_bad_address s e4 e6 p E4 E6 Hp).
    + right. destruct (try_calculate_v6 s e4 a6 p E4 E6 Hp) as (net & first & last & E).
      unfold calculate_network_info. rewrite E.
      do 5 eexists. split; [reflexivity|].
      assert (Hpow : 2 ^ 1 < 2 ^ (128 - p)) by (apply Z.pow_lt_mono_r; lia).
      change (2 ^ 1) with 2 in Hpow.
      pose proof (str_address_not_marker first).
      pose proof (str_address_not_marker last).
      split; split; intros; try contradiction; lia.
  - right. rewrite (calculate_v4 s a4 p E4 Hp). unfold v4_record.
    do 5 eexists. split; [reflexivity|].
    pose proof (small_network p Hp) as Hsmall.
    destruct (Z.leb_spec p 30) as [Hle|Hgt].
    + pose proof (proj2 Hsmall Hle).
      assert (N1 : forall n, v4_string_from_ip_int n <> NOT_APPLICABLE)
        by (intros n; apply (str_address_not_marker (address_of_int IPv4 n))).
      split; split; intros H'; try (now apply N1 in H'); lia.
    + assert (~ 2 < 2 ^ (32 - p)) by (intros H'; apply Hsmall in H'; lia).
      split; split; intros; try reflexivity; lia.
Qed.

End Claims.

(* ================================================================== *)
(** * Further properties of the program *)
(* ================================================================== *)

Section Arithmetic.

Import Py ipaddress.

Lemma testbit_above_width n i :
  0 <= n < 2 ^ 32 -> 32 <= i -> Z.testbit n i = false.
Proof.
  intros Hn Hi. apply Z.bits_above_log2; [lia|].
  destruct (Z.eq_dec n 0) as [->|Hne]; [simpl; lia|].
  assert (Z.log2 n < 32) by (apply Z.log2_lt_pow2; lia). lia.
Qed.

(** Masking with the netmask of prefix length [p] clears the low [32 - p]
    bits: it rounds the address down to a multiple of [2^(32 - p)]. *)
Lemma v4_network_div n p :
  0 <= n < 2 ^ 32 -> 0 <= p <= 32 ->
  Z.land n (ip_int_from_prefix IPv4 p) = n / 2 ^ (32 - p) * 2 ^ (32 - p).
Proof.
  intros Hn Hp.
  rewrite <- Z.shiftr_div_pow2, <- Z.shiftl_mul_pow2, <- Z.ldiff_ones_r by lia.
  apply Z.bits_inj'. intros i Hi.
  rewrite Z.land_spec, Z.ldiff_spec, v4_netmask_bits, Z.testbit_ones_nonneg by lia.
  destruct (Z.ltb_spec i 32) as [Hlt|Hge].
  - rewrite andb_true_r.
    destruct (Z.leb_spec (32 - p) i), (Z.ltb_spec i (32 - p)); try lia; reflexivity.
  - rewrite (testbit_above_width n i Hn Hge). reflexivity.
Qed.

Lemma In_range x a b : In x (range a b) <-> a <= x < b.
Proof.
  unfold range. rewrite in_map_iff. split.
  - intros (i & <- & Hi). apply in_seq in Hi. lia.
  - intros Hx. exists (Z.to_nat (x - a)). split; [lia|]. apply in_seq. lia.
Qed.


End Arithmetic.

Section Further.

Import Py ipaddress NetCalc.

(** X1. The address validation and the printing of addresses are inverse to
    each other on IPv4: the dotted-decimal text of every 32-bit value is
    accepted and read as that value, and every text accepted as an IPv4
    address is printed back unchanged. *)
Theorem ipv4_text_round_trip :
  (forall n, 0 <= n < 2 ^ 32 ->
     ip_address (str_address (address_of_int IPv4 n)) = inr (address_of_int IPv4 n))
  /\ (forall s a, ip_address s = inr a -> addr_version a = IPv4 ->
        str_address a = s /\ 0 <= ip a < 2 ^ 32).
Proof.
  split.
  - intros n Hn. unfold ip_address, str_address. cbn [addr_version address_of_int ip].
    now rewrite (IPv4Address_print n Hn).
  - intros s a Ha Hv. apply ip_address_inr in Ha as [H4|[_ H6]].
    + destruct (IPv4Address_canonical s a H4) as (Hr & _ & Hs & _).
      unfold str_address. rewrite Hv. now split.
    + apply IPv6Address_no_slash in H6 as [_ H6]. congruence.
Qed.

Lemma ipv4_text_round_trip_witness :
  0 <= 3232235777 < 2 ^ 32
  /\ ip_address (str_address (address_of_int IPv4 3232235777))
     = inr (address_of_int IPv4 3232235777)
  /\ ip_address "10.1.2.3" = inr (address_of_int IPv4 167838211)
  /\ addr_version (address_of_int IPv4 167838211) = IPv4
  /\ str_address (address_of_int IPv4 167838211) = "10.1.2.3"
  /\ 0 <= ip (address_of_int IPv4 167838211) < 2 ^ 32.
Proof.
  assert (R : 0 <= 3232235777 < 2 ^ 32) by lia.
  assert (P : ip_address "10.1.2.3" = inr (address_of_int IPv4 167838211))
    by (vm_compute; reflexivity).
  split; [exact R|].
  split; [exact (proj1 ipv4_text_round_trip 3232235777 R)|].
  split; [exact P|].
  split; [reflexivity|].
  exact (proj2 ipv4_text_round_trip "10.1.2.3" (address_of_int IPv4 167838211)
           P eq_refl).
Defined.

(** X2. An address text that contains a slash, such as a network in CIDR
    notation, is always refused: [main] stops with the address-format error
    and [calculate_network_info] returns [None] for every prefix length. *)
Theorem slash_in_address_rejected (s : string) (p : Z) :
  contains "/" s = true ->
  main s p = address_format_failure s
  /\ fst (calculate_network_info s p) = None.
Proof.
  intros Hs.
  assert (H4 : IPv4Address s = inl AddressValueError)
    by (unfold IPv4Address; now rewrite Hs).
  assert (H6 : IPv6Address s = inl AddressValueError)
    by (unfold IPv6Address; now rewrite Hs).
  split; [now apply (main_bad_address s _ _ p H4 H6)|].
  destruct (Z.le_gt_cases 0 p) as [Hp0|Hp0];
    [destruct (Z.le_gt_cases p 32) as [Hp32|Hp32]|].
  - now rewrite (calculate_bad_address s _ _ p H4 H6 (conj Hp0 Hp32)).
  - rewrite calculate_bad_prefix by lia. reflexivity.
  - rewrite calculate_bad_prefix by lia. reflexivity.
Qed.

Lemma slash_in_address_rejected_witness :
  contains "/" "10.0.0.0/8" = true
  /\ main "10.0.0.0/8" 8 = address_format_failure "10.0.0.0/8"
  /\ fst (calculate_network_info "10.0.0.0/8" 8) = None.
Proof.
  split; [reflexivity|].
  apply (slash_in_address_rejected "10.0.0.0/8" 8). reflexivity.
Defined.

(** X3. The two checks run in opposite orders in the two functions: when the
    address text is malformed and the prefix length is out of range as well,
    [main] reports the address, while [calculate_network_info] called on its
    own reports the prefix length. *)
Theorem error_precedence (s : string) (p : Z) (msg : text) :
  ip_address s = inl msg -> p < 0 \/ 32 < p ->
  main s p = address_format_failure s
  /\ calculate_network_info s p =
     (None, [LogError (Lit "Invalid input: " :: CIDR_RANGE);
             Stderr (Lit "Error: " :: CIDR_RANGE)]).
Proof.
  intros Hs Hp.
  apply ip_address_inl in Hs as [(e4 & e6 & H4 & H6) _].
  split; [now apply (main_bad_address s e4 e6)|now apply calculate_bad_prefix].
Qed.

Lemma error_precedence_witness :
  ip_address "999.1.1.1" =
    inl [Repr "999.1.1.1"; Lit " does not appear to be an IPv4 or IPv6 address"]
  /\ (40 < 0 \/ 32 < 40)
  /\ main "999.1.1.1" 40 = address_format_failure "999.1.1.1"
  /\ calculate_network_info "999.1.1.1" 40 =
     (None, [LogError (Lit "Invalid input: " :: CIDR_RANGE);
             Stderr (Lit "Error: " :: CIDR_RANGE)]).
Proof.
  split; [vm_compute; reflexivity|].
  split; [right; lia|].
  apply (error_precedence "999.1.1.1" 40
           [Repr "999.1.1.1"; Lit " does not appear to be an IPv4 or IPv6 address"]);
    [vm_compute; reflexivity|right; lia].
Defined.

(** X10. With prefix length 32 the network is the single address given: the
    network and broadcast addresses are both the address text itself, the
    usable-host fields carry the marker and the total is 1. *)
Theorem prefix_32_is_single_host (s : string) (a : Address) :
  IPv4Address s = inr a ->
  calculate_network_info s 32 =
  (Some {| network_address := s;
           broadcast_address := s;
           first_usable_host := NOT_APPLICABLE;
           last_usable_host := NOT_APPLICABLE;
           total_hosts := 1 |}, []).
Proof.
  intros Ha. rewrite (calculate_v4 s a 32 Ha) by lia.
  destruct (IPv4Address_canonical s a Ha) as (Hr & _ & Hs & _).
  unfold v4_record. cbv zeta.
  change (ip_int_from_prefix IPv4 32) with (Z.ones 32).
  rewrite Z.land_ones, Z.mod_small by lia.
  change (2 ^ (32 - 32) - 1) with 0. rewrite Z.add_0_r, <- Hs.
  reflexivity.
Qed.

Lemma prefix_32_is_single_host_witness :
  IPv4Address "192.168.1.1" = inr (address_of_int IPv4 3232235777)
  /\ calculate_network_info "192.168.1.1" 32 =
     (Some {| network_address := "192.168.1.1";
              broadcast_address := "192.168.1.1";
              first_usable_host := NOT_APPLICABLE;
              last_usable_host := NOT_APPLICABLE;
              total_hosts := 1 |}, []).
Proof.
  split; [vm_compute; reflexivity|].
  apply (prefix_32_is_single_host "192.168.1.1" (address_of_int IPv4 3232235777)).
  vm_compute. reflexivity.
Defined.

(** X12. For IPv4 input with a prefix length of at most 30, the list of
    hosts the calculation builds holds exactly the addresses strictly
    between the network address and the broadcast address: total hosts - 2
    of them. *)
Theorem host_list_is_the_open_interval (s : string) (a : Address) (p : Z) :
  IPv4Address s = inr a -> 0 <= p <= 30 ->
  exists n : Network,
    ip_network (s ++ "/" ++ str p)%string = inr n
    /\ Z.of_nat (List.length (hosts n)) = num_addresses n - 2
    /\ (forall h : Address,
          In h (hosts n) <->
          exists x, ip (ipaddress.network_address n) < x
                    < ip (ipaddress.broadcast_address n)
                    /\ h = address_of_int IPv4 x).
Proof.
  intros Ha Hp.
  assert (Hp' : 0 <= p <= 32) by lia.
  destruct (prefix_facts p Hp') as (_ & _ & Hmask & _).
  destruct (mask_facts_of IPv4 p (Hmask IPv4)) as (Hdisj & Hh & _).
  cbv zeta in Hdisj, Hh.
  pose proof (proj2 (small_network p Hp') (proj2 Hp)) as Hbig.
  eexists. split; [apply (ip_network_v4 s a p Ha Hp')|].
  unfold hosts, iter, num_addresses, ipaddress.broadcast_address, hostmask.
  cbn [ipaddress.network_address netmask net_version prefixlen addr ip address_of_int].
  rewrite (lor_hostmask (ip a) _ _ Hdisj), Hh.
  change (max_prefixlen IPv4) with 32.
  destruct (Z.eqb_spec p (32 - 1)); [lia|].
  destruct (Z.eqb_spec p 32); [lia|].
  split.
  - rewrite length_map, range_length. lia.
  - intros h. rewrite in_map_iff. split.
    + intros (x & <- & Hx). apply In_range in Hx. exists x. split; [lia|reflexivity].
    + intros (x & Hx & ->). exists x. split; [reflexivity|]. apply In_range. lia.
Qed.

Lemma host_list_is_the_open_interval_witness :
  IPv4Address "192.168.1.77" = inr (address_of_int IPv4 3232235853)
  /\ 0 <= 29 <= 30
  /\ exists n : Network,
       ip_network ("192.168.1.77" ++ "/" ++ str 29)%string = inr n
       /\ Z.of_nat (List.length (hosts n)) = num_addresses n - 2
       /\ (forall h : Address,
             In h (hosts n) <->
             exists x, ip (ipaddress.network_address n) < x
                       < ip (ipaddress.broadcast_address n)
                       /\ h = address_of_int IPv4 x).
Proof.
  split; [vm_compute; reflexivity|].
  split; [lia|].
  apply (host_list_is_the_open_interval
           "192.168.1.77" (address_of_int IPv4 3232235853) 29);
    [vm_compute; reflexivity|lia].
Defined.

(** X13. For every network object, whatever its family and prefix length,
    a count of more than two addresses guarantees that the host list is not
    empty, so taking its first and its last element never raises
    [IndexError]. *)
Theorem host_indices_never_fail (n : Network) :
  2 < num_addresses n ->
  exists first last : Address,
    getitem (hosts n) 0 = Some first /\ getitem (hosts n) (-1) = Some last.
Proof.
  intros Hnum. apply hosts_not_nil in Hnum.
  pose proof (getitem_not_nil (hosts n) 0 Hnum (or_introl eq_refl)) as H0.
  pose proof (getitem_not_nil (hosts n) (-1) Hnum (or_intror eq_refl)) as H1.
  destruct (getitem (hosts n) 0) as [first|]; [|contradiction].
  destruct (getitem (hosts n) (-1)) as [last|]; [|contradiction].
  now exists first, last.
Qed.

Lemma host_indices_never_fail_witness :
  2 < num_addresses
        {| net_version := IPv4;
           ipaddress.network_address := address_of_int IPv4 3232235776;
           netmask := 4294967292; prefixlen := 30;
           addr := address_of_int IPv4 3232235777 |}
  /\ exists first last : Address,
       getitem (hosts {| net_version := IPv4;
                         ipaddress.network_address := address_of_int IPv4 3232235776;
                         netmask := 4294967292; prefixlen := 30;
                         addr := address_of_int IPv4 3232235777 |}) 0 = Some first
       /\ getitem (hosts {| net_version := IPv4;
                            ipaddress.network_address := address_of_int IPv4 3232235776;
                            netmask := 4294967292; prefixlen := 30;
                            addr := address_of_int IPv4 3232235777 |}) (-1) = Some last.
Proof.
  assert (H : 2 < num_addresses
                    {| net_version := IPv4;
                       ipaddress.network_address := address_of_int IPv4 3232235776;
                       netmask := 4294967292; prefixlen := 30;
                       addr := address_of_int IPv4 3232235777 |})
    by (vm_compute; reflexivity).
  split; [exact H|].
  exact (host_indices_never_fail _ H).
Defined.

(** X15. A record never carries the marker in its network or broadcast
    field, for either address family. *)
Theorem network_and_broadcast_never_marker
  (s : string) (p : Z) (info : network_info) (events : list event) :
  calculate_network_info s p = (Some info, events) ->
  network_address info <> NOT_APPLICABLE
  /\ broadcast_address info <> NOT_APPLICABLE.
Proof.
  unfold calculate_network_info, try_calculate.
  destruct (negb _); [discriminate|].
  destruct (ip_network _) as [msg|n]; [discriminate|].
  destruct (if 2 <? num_addresses n then _ else _) as [e|[first last]];
    [destruct e; discriminate|].
  intros H. inversion H; subst. cbn [network_address broadcast_address].
  split; apply str_address_not_marker.
Qed.

Lemma network_and_broadcast_never_marker_witness :
  calculate_network_info "192.168.1.1" 31 =
    (Some {| network_address := "192.168.1.0";
             broadcast_address := "192.168.1.1";
             first_usable_host := NOT_APPLICABLE;
             last_usable_host := NOT_APPLICABLE;
             total_hosts := 2 |}, [])
  /\ "192.168.1.0" <> NOT_APPLICABLE
  /\ "192.168.1.1" <> NOT_APPLICABLE.
Proof.
  assert (H : calculate_network_info "192.168.1.1" 31 =
              (Some {| network_address := "192.168.1.0";
                       broadcast_address := "192.168.1.1";
                       first_usable_host := NOT_APPLICABLE;
                       last_usable_host := NOT_APPLICABLE;
                       total_hosts := 2 |}, []))
    by (vm_compute; reflexivity).
  split; [exact H|].
  exact (network_and_broadcast_never_marker "192.168.1.1" 31 _ _ H).
Defined.

(** X17. The range check on the prefix length does not keep IPv6 out: for a
    text only [IPv6Address] accepts and a prefix length in [0, 32],
    [ip_network] builds an IPv6 network of 2^(128 - p) addresses, and the
    host list the calculation then asks for has 2^(128 - p) - 1 elements,
    never fewer than 2^96 - 1. *)
Theorem ipv6_network_host_list_size (s : string) (e : error) (a : Address) (p : Z) :
  IPv4Address s = inl e -> IPv6Address s = inr a -> 0 <= p <= 32 ->
  exists n : Network,
    ip_network (s ++ "/" ++ str p)%string = inr n
    /\ net_version n = IPv6
    /\ num_addresses n = 2 ^ (128 - p)
    /\ Z.of_nat (List.length (hosts n)) = 2 ^ (128 - p) - 1
    /\ 2 ^ 96 - 1 <= 2 ^ (128 - p) - 1.
Proof.
  intros H4 H6 Hp.
  destruct (prefix_facts p Hp) as (_ & _ & Hmask & _).
  destruct (mask_facts_of IPv6 p (Hmask IPv6)) as (Hdisj & Hh & _).
  cbv zeta in Hdisj, Hh.
  eexists. split; [apply (ip_network_v6 s e a p H4 H6 Hp)|].
  split; [reflexivity|].
  set (m := ip_int_from_prefix IPv6 p) in *.
  set (na := if negb (Z.land (ip a) m =? ip a)
             then address_of_int IPv6 (Z.land (ip a) m) else a).
  assert (Hna : ip na = Z.land (ip a) m).
  { unfold na. destruct (Z.eqb_spec (Z.land (ip a) m) (ip a)) as [E|E];
      cbn [negb]; [now rewrite E|reflexivity]. }
  unfold hosts, iter, num_addresses, ipaddress.broadcast_address, hostmask.
  cbn [ipaddress.network_address netmask net_version prefixlen addr ip address_of_int].
  fold na. rewrite Hna, (lor_hostmask (ip a) m _ Hdisj), Hh.
  change (max_prefixlen IPv6) with 128.
  assert (Hpow : 2 ^ 96 <= 2 ^ (128 - p)) by (apply Z.pow_le_mono_r; lia).
  assert (H96 : 0 < 2 ^ 96) by (apply Z.pow_pos_nonneg; lia).
  destruct (Z.eqb_spec p (128 - 1)); [lia|].
  destruct (Z.eqb_spec p 128); [lia|].
  split; [lia|]. split; [|lia].
  rewrite length_map, range_length. lia.
Qed.

Lemma ipv6_network_host_list_size_witness :
  IPv4Address "::1" = inl AddressValueError
  /\ IPv6Address "::1" = inr {| addr_version := IPv6; ip := 1; scope_id := None |}
  /\ 0 <= 24 <= 32
  /\ exists n : Network,
       ip_network ("::1" ++ "/" ++ str 24)%string = inr n
       /\ net_version n = IPv6
       /\ num_addresses n = 2 ^ (128 - 24)
       /\ Z.of_nat (List.length (hosts n)) = 2 ^ (128 - 24) - 1
       /\ 2 ^ 96 - 1 <= 2 ^ (128 - 24) - 1.
Proof.
  split; [vm_compute; reflexivity|].
  split; [vm_compute; reflexivity|].
  split; [lia|].
  apply (ipv6_network_host_list_size "::1" AddressValueError
           {| addr_version := IPv6; ip := 1; scope_id := None |} 24);
    [vm_compute; reflexivity|vm_compute; reflexivity|lia].
Defined.

End Further.

Section Suffix.

Import Py ipaddress NetCalc.

Lemma forallb_from_spec (P : Z -> bool) (count : nat) :
  forall z, forallb_from P z count = true ->
  forall x, z <= x < z + Z.of_nat count -> P x = true.
Proof.
  induction count as [|c IH]; intros z H x Hx; [lia|].
  cbn [forallb_from] in H. apply andb_prop in H as [Hz Hrest].
  destruct (Z.eq_dec x z) as [->|Hne]; [exact Hz|].
  apply (IH (z + 1) Hrest). lia.
Qed.

Lemma hextets_ok : forallb_from hextet_ok 0 (Z.to_nat 65536) = true.
Proof. vm_compute. reflexivity. Qed.

Lemma hextet_facts x :
  0 <= x < 65536 -> parse_hextet (hex x) = Some x /\ String.eqb (hex x) "" = false.
Proof.
  intros Hx.
  pose proof (forallb_from_spec hextet_ok (Z.to_nat 65536) 0 hextets_ok x) as H.
  unfold hextet_ok in H.
  assert (Hr : 0 <= x < 0 + Z.of_nat (Z.to_nat 65536)) by (rewrite Z2Nat.id; lia).
  apply H in Hr. apply andb_prop in Hr as [Hp Hne].
  destruct (parse_hextet (hex x)) as [y|]; [|discriminate].
  apply Z.eqb_eq in Hp. subst y. split; [reflexivity|].
  now apply negb_true_iff.
Qed.

Lemma bytes_plain : forallb byte_plain (map Z.of_nat (seq 0 256)) = true.
Proof. vm_compute. reflexivity. Qed.

Lemma v4_string_plain n :
  contains ":" (v4_string_from_ip_int n) = false
  /\ contains "%" (v4_string_from_ip_int n) = false
  /\ contains "." (v4_string_from_ip_int n) = true.
Proof.
  assert (Hb : forall b, 0 <= b < 256 ->
            contains ":" (str b) = false /\ contains "%" (str b) = false).
  { intros b Hb. pose proof (forall_below byte_plain 256 bytes_plain b Hb) as H.
    unfold byte_plain in H. apply andb_prop in H as [H1 H2].
    split; now apply negb_true_iff. }
  split; [|split].
  - apply v4_string_no_char; [|reflexivity]. intros b Hr. now apply Hb.
  - apply v4_string_no_char; [|reflexivity]. intros b Hr. now apply Hb.
  - rewrite v4_string_unfold, contains_app. cbn [contains].
    rewrite Ascii.eqb_refl. cbn [orb]. apply orb_true_r.
Qed.

Lemma partition_without sep s :
  contains sep s = false -> partition sep s = (s, false, EmptyString).
Proof.
  induction s as [|c s IH]; simpl; [reflexivity|].
  intros H. apply orb_false_elim in H as [Hc Hs].
  now rewrite Hc, (IH Hs).
Qed.

(** The two 16-bit halves of a 32-bit value put back together. *)
Lemma halves_rejoin n :
  0 <= n < 2 ^ 32 ->
  Z.lor (Z.shiftl (Z.lor (Z.shiftl 0 16) (Z.land (Z.shiftr n 16) 65535)) 16)
        (Z.land n 65535) = n.
Proof.
  intros Hn. rewrite Z.shiftl_0_l, Z.lor_0_l.
  change 65535 with (Z.ones 16).
  apply Z.bits_inj'. intros i Hi.
  rewrite Z.lor_spec, Z.shiftl_spec, !Z.land_spec by lia.
  rewrite (Z.testbit_ones_nonneg 16 i) by lia.
  destruct (Z.ltb_spec i 16) as [Hlo|Hhi].
  - rewrite (Z.testbit_neg_r _ (i - 16)) by lia. cbn [andb orb].
    now rewrite andb_true_r.
  - rewrite Z.shiftr_spec, Z.testbit_ones_nonneg by lia.
    replace (i - 16 + 16) with i by lia.
    rewrite andb_false_r, orb_false_r.
    destruct (Z.ltb_spec (i - 16) 16) as [H32|H32]; [now rewrite andb_true_r|].
    rewrite andb_false_r. symmetry. apply testbit_above_width; lia.
Qed.

(** X18. Putting ["::"] in front of any well-formed IPv4 text gives a text
    that is not a dotted quad and that the address validation nevertheless
    accepts, as the IPv6 address of the same value; [main] then does not
    stop with the address-format error, whatever the prefix length. *)
Theorem ipv4_suffix_accepted_as_ipv6 (q : string) (a : Address) (p : Z) :
  IPv4Address q = inr a ->
  ~ dotted_quad ("::" ++ q)
  /\ ip_address ("::" ++ q)%string =
     inr {| addr_version := IPv6; ip := ip a; scope_id := None |}
  /\ main ("::" ++ q)%string p <> address_format_failure ("::" ++ q)%string.
Proof.
  intros Ha.
  destruct (IPv4Address_canonical q a Ha) as (Hr & _ & Hq & Hslash).
  destruct (v4_string_plain (ip a)) as (Hcolon & Hpercent & Hdot).
  rewrite <- Hq in Hcolon, Hpercent, Hdot.
  assert (H4 : forall a', IPv4Address ("::" ++ q)%string <> inr a').
  { intros a' Ha'.
    destruct (IPv4Address_canonical _ a' Ha') as (_ & _ & Hs & _).
    apply (f_equal (contains ":")) in Hs.
    rewrite (proj1 (v4_string_plain (ip a'))) in Hs. discriminate. }
  assert (H6 : IPv6Address ("::" ++ q)%string =
               inr {| addr_version := IPv6; ip := ip a; scope_id := None |}).
  { unfold IPv6Address.
    change (contains "/" ("::" ++ q)%string) with (contains "/" q).
    rewrite Hslash. unfold split_scope_id.
    rewrite partition_without by exact Hpercent. cbn [negb bind ret].
    unfold v6_ip_int_from_string.
    change (String.eqb ("::" ++ q)%string "") with false. cbv iota.
    change (split ":" ("::" ++ q)%string) with ("" :: "" :: split ":" q).
    rewrite (split_without _ _ Hcolon).
    cbn [List.length Nat.ltb Nat.leb last]. rewrite Hdot, Ha.
    cbn [bind ret removelast app List.length].
    change (HEXTET_COUNT + 1 <? Z.of_nat 4) with false. cbv iota.
    assert (Hhi : 0 <= Z.land (Z.shiftr (ip a) 16) 65535 < 65536)
      by (change 65535 with (Z.ones 16); rewrite Z.land_ones by lia;
          apply Z.mod_pos_bound; lia).
    assert (Hlo : 0 <= Z.land (ip a) 65535 < 65536)
      by (change 65535 with (Z.ones 16); rewrite Z.land_ones by lia;
          apply Z.mod_pos_bound; lia).
    destruct (hextet_facts _ Hhi) as [Phi Nhi].
    destruct (hextet_facts _ Hlo) as [Plo Nlo].
    cbn [tl removelast find_skip_index String.eqb]. rewrite Nhi.
    cbn [find_skip_index bind ret hd last String.eqb]. rewrite Nlo.
    change (Z.of_nat 4 - 1 - 1) with 2. change (1 - 1 =? 0) with true.
    cbn [negb bind ret].
    change (HEXTET_COUNT - (1 - 1 + 2) <? 1) with false. cbv iota.
    cbn [bind ret].
    change (Z.to_nat (1 - 1)) with 0%nat.
    change (Z.to_nat (Z.of_nat 4 - 2)) with 2%nat.
    cbn [firstn skipn shift_in].
    change (16 * (HEXTET_COUNT - (1 - 1 + 2))) with 96.
    rewrite (Z.shiftl_0_l 96).
    cbn [shift_in]. rewrite Phi. cbn [shift_in]. rewrite Plo.
    cbn [shift_in bind ret].
    now rewrite (halves_rejoin (ip a) Hr). }
  split; [|split].
  - intros Hd. apply dotted_quad_IPv4Address in Hd as [a' Ha']. now apply (H4 a').
  - apply ip_address_inr. right. split; [|exact H6].
    destruct (IPv4Address ("::" ++ q)%string) as [e|a'] eqn:E; [now exists e|].
    now destruct (H4 a').
  - unfold main, ip_address.
    destruct (IPv4Address ("::" ++ q)%string) as [e|a'] eqn:E; [|now destruct (H4 a')].
    rewrite H6. unfold calculate_network_info, address_format_failure.
    destruct (try_calculate ("::" ++ q)%string p) as [[msg|]|info]; discriminate.
Qed.

Lemma ipv4_suffix_accepted_as_ipv6_witness :
  IPv4Address "10.1.2.3" = inr (address_of_int IPv4 167838211)
  /\ ~ dotted_quad ("::" ++ "10.1.2.3")
  /\ ip_address ("::" ++ "10.1.2.3")%string =
     inr {| addr_version := IPv6; ip := 167838211; scope_id := None |}
  /\ main ("::" ++ "10.1.2.3")%string 24
     <> address_format_failure ("::" ++ "10.1.2.3")%string.
Proof.
  split; [vm_compute; reflexivity|].
  apply (ipv4_suffix_accepted_as_ipv6 "10.1.2.3" (address_of_int IPv4 167838211) 24).
  vm_compute. reflexivity.
Defined.

End Suffix.

Section PointToPoint.

Import Py ipaddress NetCalc.

(** X19. For the prefix lengths 31 and 32 the library's host list is not
    empty: it holds both addresses of the pair, respectively the single
    address given.  The calculation does not ask for it and reports the
    marker in both usable-host fields. *)
Theorem short_networks_report_marker_despite_hosts (s : string) (a : Address) (p : Z) :
  IPv4Address s = inr a -> p = 31 \/ p = 32 ->
  exists (n : Network) (info : network_info),
    ip_network (s ++ "/" ++ str p)%string = inr n
    /\ (p = 31 ->
        hosts n = [ipaddress.network_address n; ipaddress.broadcast_address n]
        /\ ip (ipaddress.broadcast_address n) = ip (ipaddress.network_address n) + 1)
    /\ (p = 32 -> hosts n = [a])
    /\ calculate_network_info s p = (Some info, [])
    /\ first_usable_host info = NOT_APPLICABLE
    /\ last_usable_host info = NOT_APPLICABLE.
Proof.
  intros Ha Hp.
  assert (Hp' : 0 <= p <= 32) by lia.
  destruct (prefix_facts p Hp') as (_ & _ & Hmask & _).
  destruct (mask_facts_of IPv4 p (Hmask IPv4)) as (Hdisj & Hh & _).
  cbv zeta in Hdisj, Hh.
  eexists. exists (v4_record (ip a) p).
  split; [apply (ip_network_v4 s a p Ha Hp')|].
  unfold hosts, iter, ipaddress.broadcast_address, hostmask.
  cbn [ipaddress.network_address netmask net_version prefixlen addr ip address_of_int].
  rewrite (lor_hostmask (ip a) _ _ Hdisj), Hh.
  change (max_prefixlen IPv4) with 32.
  split; [|split; [|split; [now apply calculate_v4|]]].
  - intros ->. change (32 - 1) with 31. rewrite Z.eqb_refl.
    change (2 ^ (32 - 31) - 1) with 1.
    split; [|reflexivity].
    unfold range.
    replace (Z.to_nat (Z.land (ip a) (ip_int_from_prefix IPv4 31) + 1 + 1
                       - Z.land (ip a) (ip_int_from_prefix IPv4 31)))
      with 2%nat by lia.
    cbn [seq map]. now rewrite Z.add_0_r.
  - intros ->. reflexivity.
  - unfold v4_record. cbn [first_usable_host last_usable_host].
    destruct (Z.leb_spec p 30); [lia|]. split; reflexivity.
Qed.

Lemma short_networks_report_marker_despite_hosts_witness :
  IPv4Address "192.168.1.77" = inr (address_of_int IPv4 3232235853)
  /\ (31 = 31 \/ 31 = 32)
  /\ exists (n : Network) (info : network_info),
       ip_network ("192.168.1.77" ++ "/" ++ str 31)%string = inr n
       /\ (31 = 31 ->
           hosts n = [ipaddress.network_address n; ipaddress.broadcast_address n]
           /\ ip (ipaddress.broadcast_address n)
              = ip (ipaddress.network_address n) + 1)
       /\ (31 = 32 -> hosts n = [address_of_int IPv4 3232235853])
       /\ calculate_network_info "192.168.1.77" 31 = (Some info, [])
       /\ first_usable_host info = NOT_APPLICABLE
       /\ last_usable_host info = NOT_APPLICABLE.
Proof.
  split; [vm_compute; reflexivity|].
  split; [left; reflexivity|].
  apply (short_networks_report_marker_despite_hosts
           "192.168.1.77" (address_of_int IPv4 3232235853) 31);
    [vm_compute; reflexivity|left; reflexivity].
Defined.

End PointToPoint.

(* ================================================================== *)
(** * The calculation on a machine with bounded memory *)
(* ================================================================== *)

Section BoundedMemory.

Import Py ipaddress NetCalc.

Lemma list_of_fits {A : Type} capacity (l : list A) :
  Z.of_nat (List.length l) <= capacity -> Bounded.list_of capacity l = inr l.
Proof.
  intros H. unfold Bounded.list_of.
  destruct (Z.leb_spec (Z.of_nat (List.length l)) capacity); [reflexivity|lia].
Qed.

Lemma list_of_exhausted {A : Type} capacity (l : list A) :
  capacity < Z.of_nat (List.length l) ->
  Bounded.list_of capacity l = inl Bounded.MemoryError.
Proof.
  intros H. unfold Bounded.list_of.
  destruct (Z.leb_spec (Z.of_nat (List.length l)) capacity); [lia|reflexivity].
Qed.

Lemma list_of_cases {A : Type} capacity (l : list A) :
  Bounded.list_of capacity l = inr l
  \/ Bounded.list_of capacity l = inl Bounded.MemoryError.
Proof. unfold Bounded.list_of. destruct (_ <=? _); auto. Qed.

(** Whatever the machine, a record it returns is the record of the
    calculation with unbounded lists. *)
Lemma bounded_record capacity s p info :
  Bounded.try_calculate capacity s p = inr info -> try_calculate s p = inr info.
Proof.
  unfold Bounded.try_calculate, try_calculate.
  destruct (negb _); [discriminate|].
  destruct (ip_network _) as [msg|n]; [discriminate|].
  destruct (2 <? num_addresses n); [|intros H; inversion H; reflexivity].
  destruct (list_of_cases capacity (hosts n)) as [-> | ->]; [|discriminate].
  destruct (getitem (hosts n) 0); [|discriminate].
  destruct (getitem (hosts n) (-1)); [|discriminate].
  intros H; inversion H; reflexivity.
Qed.

(** The only exceptions of a bounded run are the [ValueError]s of the
    unbounded one and [MemoryError]. *)
Lemma bounded_failure capacity s p e :
  Bounded.try_calculate capacity s p = inl e ->
  (exists msg, e = Bounded.ValueError msg /\ try_calculate s p = inl (ValueError msg))
  \/ e = Bounded.MemoryError.
Proof.
  unfold Bounded.try_calculate, try_calculate.
  destruct (negb _); [intros H; inversion H; left; now eexists|].
  destruct (ip_network _) as [msg|n]; [intros H; inversion H; left; now eexists|].
  destruct (2 <? num_addresses n) eqn:Hnum; [|discriminate].
  apply Z.ltb_lt, hosts_not_nil in Hnum.
  pose proof (getitem_not_nil (hosts n) 0 Hnum (or_introl eq_refl)).
  pose proof (getitem_not_nil (hosts n) (-1) Hnum (or_intror eq_refl)).
  destruct (list_of_cases capacity (hosts n)) as [-> | ->];
    [|intros H'; inversion H'; now right].
  destruct (getitem (hosts n) 0); [|contradiction].
  destruct (getitem (hosts n) (-1)); [|contradiction].
  discriminate.
Qed.

Lemma bounded_try_bad_prefix capacity s p :
  p < 0 \/ 32 < p ->
  Bounded.try_calculate capacity s p = inl (Bounded.ValueError CIDR_RANGE).
Proof.
  intros Hp. unfold Bounded.try_calculate.
  replace ((0 <=? p) && (p <=? 32)) with false; [reflexivity|].
  symmetry. apply andb_false_iff.
  destruct Hp; [left; apply Z.leb_gt|right; apply Z.leb_gt]; lia.
Qed.

(** The bounded calculation on IPv4 input, in closed form: the host list of
    a prefix length of at most 30 has [2^(32 - p) - 2] elements and must
    fit. *)
Lemma bounded_try_v4 capacity s a p :
  IPv4Address s = inr a -> 0 <= p <= 32 ->
  Bounded.try_calculate capacity s p =
  if (p <=? 30) && (capacity <? 2 ^ (32 - p) - 2)
  then inl Bounded.MemoryError
  else inr (v4_record (ip a) p).
Proof.
  intros Ha Hp. unfold Bounded.try_calculate.
  rewrite (prefix_guard p Hp), (ip_network_v4 s a p Ha Hp).
  destruct (prefix_facts p Hp) as (_ & _ & Hmask & Hsmall).
  destruct (mask_facts_of IPv4 p (Hmask IPv4)) as (Hdisj & Hh & _).
  cbv zeta in Hdisj, Hh.
  set (m := ip_int_from_prefix IPv4 p) in *.
  unfold hosts, iter, num_addresses, ipaddress.broadcast_address, hostmask.
  cbn [ipaddress.network_address netmask net_version prefixlen addr ip address_of_int].
  rewrite (lor_hostmask (ip a) m _ Hdisj).
  set (net := Z.land (ip a) m).
  rewrite Hh. change (max_prefixlen IPv4) with 32.
  replace (net + (2 ^ (32 - p) - 1) - net + 1) with (2 ^ (32 - p)) by lia.
  rewrite Hsmall. unfold v4_record. fold m. fold net. cbv zeta.
  destruct (Z.leb_spec p 30) as [Hle|Hgt]; [|reflexivity].
  destruct (Z.eqb_spec p (32 - 1)); [lia|].
  destruct (Z.eqb_spec p 32); [lia|].
  assert (Hpow : 2 < 2 ^ (32 - p)) by (now apply Z.ltb_lt).
  assert (Hlen : Z.of_nat (List.length
                   (map (address_of_int IPv4)
                      (range (net + 1) (net + (2 ^ (32 - p) - 1)))))
                 = 2 ^ (32 - p) - 2)
    by (rewrite length_map, range_length; lia).
  cbn [andb].
  destruct (Z.ltb_spec capacity (2 ^ (32 - p) - 2)) as [Hsmallc|Hfits].
  - rewrite list_of_exhausted by lia. reflexivity.
  - rewrite list_of_fits by lia.
    rewrite getitem_range_first, getitem_range_last by lia.
    unfold str_address. cbn [addr_version address_of_int ip].
    reflexivity.
Qed.

Lemma bounded_try_v4_fits capacity s a p :
  IPv4Address s = inr a -> 0 <= p <= 32 ->
  31 <= p \/ 2 ^ (32 - p) - 2 <= capacity ->
  Bounded.try_calculate capacity s p = inr (v4_record (ip a) p).
Proof.
  intros Ha Hp Hfits. rewrite (bounded_try_v4 capacity s a p Ha Hp).
  destruct (Z.leb_spec p 30); [|reflexivity].
  destruct (Z.ltb_spec capacity (2 ^ (32 - p) - 2)); [lia|reflexivity].
Qed.

Lemma bounded_try_v4_exhausted capacity s a p :
  IPv4Address s = inr a -> 0 <= p <= 30 -> capacity < 2 ^ (32 - p) - 2 ->
  Bounded.try_calculate capacity s p = inl Bounded.MemoryError.
Proof.
  intros Ha Hp Hc. rewrite (bounded_try_v4 capacity s a p Ha) by lia.
  destruct (Z.leb_spec p 30); [|lia].
  destruct (Z.ltb_spec capacity (2 ^ (32 - p) - 2)); [reflexivity|lia].
Qed.

(** On IPv6 input with a prefix length in [0, 32] the host list has at
    least [2^96 - 1] elements. *)
Lemma bounded_try_v6_exhausted capacity s e a p :
  IPv4Address s = inl e -> IPv6Address s = inr a -> 0 <= p <= 32 ->
  capacity < 2 ^ 96 - 1 ->
  Bounded.try_calculate capacity s p = inl Bounded.MemoryError.
Proof.
  intros H4 H6 Hp Hc. unfold Bounded.try_calculate.
  rewrite (prefix_guard p Hp), (ip_network_v6 s e a p H4 H6 Hp).
  destruct (prefix_facts p Hp) as (_ & _ & Hmask & _).
  destruct (mask_facts_of IPv6 p (Hmask IPv6)) as (Hdisj & Hh & _).
  cbv zeta in Hdisj, Hh.
  set (m := ip_int_from_prefix IPv6 p) in *.
  set (na := if negb (Z.land (ip a) m =? ip a)
             then address_of_int IPv6 (Z.land (ip a) m) else a).
  assert (Hna : ip na = Z.land (ip a) m).
  { unfold na. destruct (Z.eqb_spec (Z.land (ip a) m) (ip a)) as [E|E];
      cbn [negb]; [now rewrite E|reflexivity]. }
  unfold hosts, iter, num_addresses, ipaddress.broadcast_address, hostmask.
  cbn [ipaddress.network_address netmask net_version prefixlen addr ip address_of_int].
  rewrite Hna, (lor_hostmask (ip a) m _ Hdisj), <- Hna, Hh.
  change (max_prefixlen IPv6) with 128.
  replace (ip na + (2 ^ (128 - p) - 1) - ip na + 1) with (2 ^ (128 - p)) by lia.
  assert (Hpow : 2 ^ 96 <= 2 ^ (128 - p)) by (apply Z.pow_le_mono_r; lia).
  assert (H96 : 2 < 2 ^ 96) by reflexivity.
  destruct (Z.ltb_spec 2 (2 ^ (128 - p))); [|lia].
  destruct (Z.eqb_spec p (128 - 1)); [lia|].
  destruct (Z.eqb_spec p 128); [lia|].
  rewrite list_of_exhausted; [reflexivity|].
  rewrite length_map, range_length. lia.
Qed.

Lemma bounded_calculate_v4_fits capacity s a p :
  IPv4Address s = inr a -> 0 <= p <= 32 ->
  31 <= p \/ 2 ^ (32 - p) - 2 <= capacity ->
  Bounded.calculate_network_info capacity s p = (Some (v4_record (ip a) p), []).
Proof.
  intros Ha Hp Hfits. unfold Bounded.calculate_network_info.
  now rewrite (bounded_try_v4_fits capacity s a p Ha Hp Hfits).
Qed.

Lemma bounded_calculate_v4_exhausted capacity s a p :
  IPv4Address s = inr a -> 0 <= p <= 30 -> capacity < 2 ^ (32 - p) - 2 ->
  Bounded.calculate_network_info capacity s p = (None, memory_failure).
Proof.
  intros Ha Hp Hc. unfold Bounded.calculate_network_info.
  now rewrite (bounded_try_v4_exhausted capacity s a p Ha Hp Hc).
Qed.

(** A record the bounded calculation returns for IPv4 input is the closed
    form, and it comes without events. *)
Lemma bounded_calculate_v4_record capacity s a p info events :
  IPv4Address s = inr a -> 0 <= p <= 32 ->
  Bounded.calculate_network_info capacity s p = (Some info, events) ->
  info = v4_record (ip a) p /\ events = [].
Proof.
  intros Ha Hp. unfold Bounded.calculate_network_info.
  rewrite (bounded_try_v4 capacity s a p Ha Hp).
  destruct ((p <=? 30) && (capacity <? 2 ^ (32 - p) - 2)); [discriminate|].
  intros H. inversion H. now split.
Qed.

Lemma bounded_main_v4_fits capacity s a p :
  IPv4Address s = inr a -> 0 <= p <= 32 ->
  31 <= p \/ 2 ^ (32 - p) - 2 <= capacity ->
  Bounded.main capacity s p = (0, report (v4_record (ip a) p)).
Proof.
  intros Ha Hp Hfits. unfold Bounded.main, ip_address.
  now rewrite Ha, (bounded_calculate_v4_fits capacity s a p Ha Hp Hfits).
Qed.

Lemma bounded_main_v4_exhausted capacity s a p :
  IPv4Address s = inr a -> 0 <= p <= 30 -> capacity < 2 ^ (32 - p) - 2 ->
  Bounded.main capacity s p = (1, memory_failure).
Proof.
  intros Ha Hp Hc. unfold Bounded.main, ip_address.
  now rewrite Ha, (bounded_calculate_v4_exhausted capacity s a p Ha Hp Hc).
Qed.

Lemma bounded_main_bad_address capacity s e4 e6 p :
  IPv4Address s = inl e4 -> IPv6Address s = inl e6 ->
  Bounded.main capacity s p = address_format_failure s.
Proof.
  intros H4 H6. unfold Bounded.main, ip_address. now rewrite H4, H6.
Qed.

End BoundedMemory.

(* ================================================================== *)
(** * Properties of the calculation wherever the host list fits *)
(* ================================================================== *)

Section BoundedClaims.

Import Py ipaddress NetCalc.

(** C1. For every valid IPv4 address and every prefix length in [0, 32],
    on a machine that can hold the host list (none is built for 31 and 32),
    the computed network address is the address AND the mask whose top
    prefix-length bits are 1 and whose other bits are 0, the broadcast
    address is the network address OR the complement of that mask, and the
    network address AND the complement of the mask is 0.  Each reported
    text is pinned by the value the address parser reads from it. *)
Theorem network_and_broadcast_from_mask
  (capacity : Z) (s : string) (a : Address) (p : Z) :
  IPv4Address s = inr a -> 0 <= p <= 32 ->
  31 <= p \/ 2 ^ (32 - p) - 2 <= capacity ->
  exists (mask : Z) (info : network_info),
    (forall i, 0 <= i -> Z.testbit mask i = (32 - p <=? i) && (i <? 32))
    /\ Bounded.calculate_network_info capacity s p = (Some info, [])
    /\ IPv4Address (network_address info)
       = inr (address_of_int IPv4 (Z.land (ip a) mask))
    /\ IPv4Address (broadcast_address info)
       = inr (address_of_int IPv4
                (Z.lor (Z.land (ip a) mask) (complement IPv4 mask)))
    /\ Z.land (Z.land (ip a) mask) (complement IPv4 mask) = 0.
Proof.
  intros Ha Hp Hfits.
  destruct (IPv4Address_canonical s a Ha) as (Hr & _).
  destruct (v4_network_range (ip a) p Hr Hp) as (H0 & _ & Hlt & Hpos & Hor & Hand).
  exists (ip_int_from_prefix IPv4 p), (v4_record (ip a) p).
  split; [intros i Hi; now apply v4_netmask_bits|].
  split; [now apply bounded_calculate_v4_fits|].
  unfold v4_record. cbn [network_address broadcast_address].
  split; [apply IPv4Address_print; lia|].
  split; [rewrite <- Hor; apply IPv4Address_print; lia|exact Hand].
Qed.

Lemma network_and_broadcast_from_mask_witness :
  IPv4Address "192.168.1.77" = inr (address_of_int IPv4 3232235853)
  /\ 0 <= 24 <= 32
  /\ (31 <= 24 \/ 2 ^ (32 - 24) - 2 <= 1000)
  /\ exists (mask : Z) (info : network_info),
       (forall i, 0 <= i -> Z.testbit mask i = (32 - 24 <=? i) && (i <? 32))
       /\ Bounded.calculate_network_info 1000 "192.168.1.77" 24 = (Some info, [])
       /\ IPv4Address (network_address info)
          = inr (address_of_int IPv4 (Z.land 3232235853 mask))
       /\ IPv4Address (broadcast_address info)
          = inr (address_of_int IPv4
                   (Z.lor (Z.land 3232235853 mask) (complement IPv4 mask)))
       /\ Z.land (Z.land 3232235853 mask) (complement IPv4 mask) = 0.
Proof.
  split; [vm_compute; reflexivity|].
  split; [lia|].
  split; [right; vm_compute; discriminate|].
  apply (network_and_broadcast_from_mask
           1000 "192.168.1.77" (address_of_int IPv4 3232235853) 24);
    [vm_compute; reflexivity|lia|right; vm_compute; discriminate].
Defined.

(** C2. The network object holds the exact count 2^(32 - prefix length),
    and that is the total reported whenever a record is returned; but the
    calculation builds the whole host list before it reads the count, so
    on a machine that cannot hold 2^(32 - p) - 2 address objects (at prefix
    length 0: 2^32 - 2) it returns [None] after a [MemoryError] and [main]
    exits with status 1 and reports no total. *)
Theorem host_list_exhausts_memory
  (capacity : Z) (s : string) (a : Address) (p : Z) :
  IPv4Address s = inr a -> 0 <= p <= 30 -> capacity < 2 ^ (32 - p) - 2 ->
  Bounded.calculate_network_info capacity s p = (None, memory_failure)
  /\ Bounded.main capacity s p = (1, memory_failure)
  /\ (exists n, ip_network (s ++ "/" ++ str p)%string = inr n
                /\ num_addresses n = 2 ^ (32 - p))
  /\ (forall capacity', 2 ^ (32 - p) - 2 <= capacity' ->
      exists info,
        Bounded.calculate_network_info capacity' s p = (Some info, [])
        /\ total_hosts info = 2 ^ (32 - p)
        /\ List.last (snd (Bounded.main capacity' s p)) (Stdout "")
           = Stdout ("Total Hosts:       " ++ str (2 ^ (32 - p)))).
Proof.
  intros Ha Hp Hc. assert (Hp' : 0 <= p <= 32) by lia.
  split; [now apply (bounded_calculate_v4_exhausted capacity s a p)|].
  split; [now apply (bounded_main_v4_exhausted capacity s a p)|].
  split.
  - eexists. split; [apply (ip_network_v4 s a p Ha Hp')|].
    destruct (prefix_facts p Hp') as (_ & _ & Hmask & _).
    destruct (mask_facts_of IPv4 p (Hmask IPv4)) as (Hdisj & Hh & _).
    cbv zeta in Hdisj, Hh.
    unfold num_addresses, ipaddress.broadcast_address, hostmask.
    cbn [ipaddress.network_address netmask net_version ip address_of_int].
    rewrite (lor_hostmask (ip a) _ _ Hdisj), Hh.
    change (max_prefixlen IPv4) with 32. lia.
  - intros capacity' Hfits. exists (v4_record (ip a) p).
    split; [apply bounded_calculate_v4_fits; auto|].
    split; [reflexivity|].
    rewrite (bounded_main_v4_fits capacity' s a p Ha Hp') by auto. reflexivity.
Qed.

Lemma host_list_exhausts_memory_witness :
  IPv4Address "10.0.0.1" = inr (address_of_int IPv4 167772161)
  /\ 0 <= 0 <= 30
  /\ 1000000000 < 2 ^ (32 - 0) - 2
  /\ Bounded.calculate_network_info 1000000000 "10.0.0.1" 0 = (None, memory_failure)
  /\ Bounded.main 1000000000 "10.0.0.1" 0 = (1, memory_failure)
  /\ (exists n, ip_network ("10.0.0.1" ++ "/" ++ str 0)%string = inr n
                /\ num_addresses n = 2 ^ (32 - 0))
  /\ (forall capacity', 2 ^ (32 - 0) - 2 <= capacity' ->
      exists info,
        Bounded.calculate_network_info capacity' "10.0.0.1" 0 = (Some info, [])
        /\ total_hosts info = 2 ^ (32 - 0)
        /\ List.last (snd (Bounded.main capacity' "10.0.0.1" 0)) (Stdout "")
           = Stdout ("Total Hosts:       " ++ str (2 ^ (32 - 0)))).
Proof.
  split; [vm_compute; reflexivity|].
  split; [lia|].
  split; [vm_compute; reflexivity|].
  apply (host_list_exhausts_memory
           1000000000 "10.0.0.1" (address_of_int IPv4 167772161) 0);
    [vm_compute; reflexivity|lia|vm_compute; reflexivity].
Defined.

(** C3. For every valid input with more than two addresses, on a machine
    that can hold the host list, the first usable host is the network
    address plus 1 and the last usable host is the broadcast address minus
    1, so that last - first = total hosts - 3; for every valid input with at
    most two addresses, which are the prefix lengths 31 and 32, both
    usable-host fields carry the not-applicable marker. *)
Theorem usable_host_range (capacity : Z) (s : string) (a : Address) (p : Z) :
  IPv4Address s = inr a -> 0 <= p <= 32 ->
  31 <= p \/ 2 ^ (32 - p) - 2 <= capacity ->
  exists (info : network_info) (net bcast : Z),
    Bounded.calculate_network_info capacity s p = (Some info, [])
    /\ IPv4Address (network_address info) = inr (address_of_int IPv4 net)
    /\ IPv4Address (broadcast_address info) = inr (address_of_int IPv4 bcast)
    /\ (2 < total_hosts info ->
        IPv4Address (first_usable_host info) = inr (address_of_int IPv4 (net + 1))
        /\ IPv4Address (last_usable_host info) = inr (address_of_int IPv4 (bcast - 1))
        /\ (bcast - 1) - (net + 1) = total_hosts info - 3)
    /\ (total_hosts info <= 2 ->
        (p = 31 \/ p = 32)
        /\ first_usable_host info = NOT_APPLICABLE
        /\ last_usable_host info = NOT_APPLICABLE)
    /\ (p = 31 \/ p = 32 -> total_hosts info <= 2).
Proof.
  intros Ha Hp Hfits.
  destruct (IPv4Address_canonical s a Ha) as (Hr & _).
  destruct (v4_network_range (ip a) p Hr Hp) as (H0 & _ & Hlt & Hpos & _).
  pose proof (small_network p Hp) as Hsmall.
  exists (v4_record (ip a) p), (Z.land (ip a) (ip_int_from_prefix IPv4 p)),
    (Z.land (ip a) (ip_int_from_prefix IPv4 p) + (2 ^ (32 - p) - 1)).
  split; [now apply bounded_calculate_v4_fits|].
  unfold v4_record.
  cbn [network_address broadcast_address first_usable_host last_usable_host
       total_hosts].
  split; [apply IPv4Address_print; lia|].
  split; [apply IPv4Address_print; lia|].
  split; [|split].
  - intros Hbig. pose proof (proj1 Hsmall Hbig).
    destruct (Z.leb_spec p 30); [|lia].
    split; [apply IPv4Address_print; lia|].
    split; [apply IPv4Address_print; lia|lia].
  - intros Hle.
    assert (Hp' : ~ p <= 30) by (intros H; apply Hsmall in H; lia).
    destruct (Z.leb_spec p 30); [lia|].
    repeat split. lia.
  - intros [-> | ->]; [change (2 ^ (32 - 31)) with 2|change (2 ^ (32 - 32)) with 1];
      lia.
Qed.

Lemma usable_host_range_witness :
  IPv4Address "172.16.0.5" = inr (address_of_int IPv4 2886729733)
  /\ 0 <= 16 <= 32
  /\ (31 <= 16 \/ 2 ^ (32 - 16) - 2 <= 100000)
  /\ exists (info : network_info) (net bcast : Z),
       Bounded.calculate_network_info 100000 "172.16.0.5" 16 = (Some info, [])
       /\ IPv4Address (network_address info) = inr (address_of_int IPv4 net)
       /\ IPv4Address (broadcast_address info) = inr (address_of_int IPv4 bcast)
       /\ (2 < total_hosts info ->
           IPv4Address (first_usable_host info)
           = inr (address_of_int IPv4 (net + 1))
           /\ IPv4Address (last_usable_host info)
              = inr (address_of_int IPv4 (bcast - 1))
           /\ (bcast - 1) - (net + 1) = total_hosts info - 3)
       /\ (total_hosts info <= 2 ->
           (16 = 31 \/ 16 = 32)
           /\ first_usable_host info = NOT_APPLICABLE
           /\ last_usable_host info = NOT_APPLICABLE)
       /\ (16 = 31 \/ 16 = 32 -> total_hosts info <= 2).
Proof.
  split; [vm_compute; reflexivity|].
  split; [lia|].
  split; [right; vm_compute; discriminate|].
  apply (usable_host_range 100000 "172.16.0.5" (address_of_int IPv4 2886729733) 16);
    [vm_compute; reflexivity|lia|right; vm_compute; discriminate].
Defined.



(** C6. The claim holds for every text that neither address family accepts:
    [main] fails with the invalid-address-format error, exits with status 1
    and prints nothing on standard output.  It fails for a text that is not
    a dotted quad but that [IPv6Address] accepts: the validation lets it
    through, and the run ends with status 1 and nothing on standard output
    but with another error, the prefix-length error for a prefix length
    outside [0, 32] and otherwise the unexpected-error report after the
    host list of at least 2^96 - 1 addresses exhausted the memory. *)
Theorem address_validation_lets_ipv6_through (capacity : Z) (s : string) (p : Z) :
  ~ dotted_quad s ->
  ((forall a, IPv6Address s <> inr a) ->
   Bounded.main capacity s p = address_format_failure s)
  /\ (forall a, IPv6Address s = inr a -> capacity < 2 ^ 96 - 1 ->
      Bounded.main capacity s p <> address_format_failure s
      /\ (p < 0 \/ 32 < p ->
          Bounded.main capacity s p =
          (1, [LogError (Lit "Invalid input: " :: CIDR_RANGE);
               Stderr (Lit "Error: " :: CIDR_RANGE)]))
      /\ (0 <= p <= 32 -> Bounded.main capacity s p = (1, memory_failure))).
Proof.
  intros Hq.
  destruct (IPv4Address s) as [e4|a4] eqn:E4;
    [|destruct Hq; apply dotted_quad_IPv4Address; now exists a4].
  split.
  - intros H6. destruct (IPv6Address s) as [e6|a6] eqn:E6; [|now destruct (H6 a6)].
    now apply (bounded_main_bad_address capacity s e4 e6).
  - intros a H6 Hc.
    assert (Hout : p < 0 \/ 32 < p ->
              Bounded.main capacity s p =
              (1, [LogError (Lit "Invalid input: " :: CIDR_RANGE);
                   Stderr (Lit "Error: " :: CIDR_RANGE)])).
    { intros Hp. unfold Bounded.main, ip_address, Bounded.calculate_network_info.
      now rewrite E4, H6, (bounded_try_bad_prefix capacity s p Hp). }
    assert (Hin : 0 <= p <= 32 -> Bounded.main capacity s p = (1, memory_failure)).
    { intros Hp. unfold Bounded.main, ip_address, Bounded.calculate_network_info.
      now rewrite E4, H6, (bounded_try_v6_exhausted capacity s e4 a p E4 H6 Hp Hc). }
    split; [|split; assumption].
    destruct (Z.le_gt_cases 0 p) as [Hp0|Hp0];
      [destruct (Z.le_gt_cases p 32) as [Hp32|Hp32]|].
    + rewrite Hin by lia. discriminate.
    + rewrite Hout by lia. discriminate.
    + rewrite Hout by lia. discriminate.
Qed.

Lemma not_a_dotted_quad s e : IPv4Address s = inl e -> ~ dotted_quad s.
Proof.
  intros E H. apply dotted_quad_IPv4Address in H as [a Ha]. congruence.
Qed.

Lemma address_validation_lets_ipv6_through_witness :
  ~ dotted_quad "::1"
  /\ IPv6Address "::1" = inr {| addr_version := IPv6; ip := 1; scope_id := None |}
  /\ 1000000000 < 2 ^ 96 - 1
  /\ 0 <= 24 <= 32
  /\ Bounded.main 1000000000 "::1" 24 <> address_format_failure "::1"
  /\ Bounded.main 1000000000 "::1" 24 = (1, memory_failure).
Proof.
  assert (Hq : ~ dotted_quad "::1")
    by (apply (not_a_dotted_quad _ AddressValueError); vm_compute; reflexivity).
  assert (H6 : IPv6Address "::1"
               = inr {| addr_version := IPv6; ip := 1; scope_id := None |})
    by (vm_compute; reflexivity).
  assert (Hc : 1000000000 < 2 ^ 96 - 1) by (vm_compute; reflexivity).
  assert (Hp : 0 <= 24 <= 32) by lia.
  split; [exact Hq|]. split; [exact H6|]. split; [exact Hc|]. split; [exact Hp|].
  destruct (proj2 (address_validation_lets_ipv6_through 1000000000 "::1" 24 Hq)
              _ H6 Hc) as (Hne & _ & Hin).
  split; [exact Hne|exact (Hin Hp)].
Defined.

(** C8, as the code has it.  On every input and every machine the
    calculation either returns a record and emits nothing, or returns
    [None] after emitting exactly one error record to the log and one line
    on standard error: the message of the [ValueError], or the
    unexpected-error text after a [MemoryError].  It never writes to
    standard output.  Two machines give the same outcome on the same input
    unless one of them runs out of memory. *)
Theorem calculation_effects (capacity : Z) (s : string) (p : Z) :
  ((exists info, Bounded.calculate_network_info capacity s p = (Some info, []))
   \/ (exists msg,
         Bounded.calculate_network_info capacity s p =
         (None, [LogError (Lit "Invalid input: " :: msg);
                 Stderr (Lit "Error: " :: msg)]))
   \/ Bounded.calculate_network_info capacity s p = (None, memory_failure))
  /\ (forall capacity',
        Bounded.calculate_network_info capacity' s p
        = Bounded.calculate_network_info capacity s p
        \/ Bounded.calculate_network_info capacity' s p = (None, memory_failure)
        \/ Bounded.calculate_network_info capacity s p = (None, memory_failure)).
Proof.
  assert (Hshape : forall c,
            (exists info, Bounded.try_calculate c s p = inr info
                          /\ try_calculate s p = inr info)
            \/ (exists msg, Bounded.try_calculate c s p = inl (Bounded.ValueError msg)
                            /\ try_calculate s p = inl (ValueError msg))
            \/ Bounded.try_calculate c s p = inl Bounded.MemoryError).
  { intros c. destruct (Bounded.try_calculate c s p) as [e|info] eqn:E.
    - destruct (bounded_failure c s p e E) as [(msg & -> & Hv)| ->].
      + right; left. now exists msg.
      + right; right. reflexivity.
    - left. exists info. split; [reflexivity|now apply (bounded_record c)]. }
  split.
  - unfold Bounded.calculate_network_info.
    destruct (Hshape capacity) as [(info & -> & _)|[(msg & -> & _)| ->]].
    + left. now exists info.
    + right; left. now exists msg.
    + right; right. reflexivity.
  - intros capacity'. unfold Bounded.calculate_network_info.
    destruct (Hshape capacity) as [(info & -> & Hi)|[(msg & -> & Hm)| ->]];
      [| |right; right; reflexivity];
      (destruct (Hshape capacity') as [(info' & -> & Hi')|[(msg' & -> & Hm')| ->]];
       [| |right; left; reflexivity]);
      try congruence; left; congruence.
Qed.

(** X4. The address given lies in the network reported for it: it is at
    least the network address and at most the broadcast address. *)
Theorem address_within_network (capacity : Z) (s : string) (a : Address) (p : Z) :
  IPv4Address s = inr a -> 0 <= p <= 32 ->
  31 <= p \/ 2 ^ (32 - p) - 2 <= capacity ->
  exists (info : network_info) (net bcast : Z),
    Bounded.calculate_network_info capacity s p = (Some info, [])
    /\ IPv4Address (network_address info) = inr (address_of_int IPv4 net)
    /\ IPv4Address (broadcast_address info) = inr (address_of_int IPv4 bcast)
    /\ net <= ip a <= bcast.
Proof.
  intros Ha Hp Hfits.
  destruct (IPv4Address_canonical s a Ha) as (Hr & _).
  destruct (v4_network_range (ip a) p Hr Hp) as (H0 & Hle & Hlt & Hpos & _).
  pose proof (v4_network_div (ip a) p Hr Hp) as Hdiv.
  exists (v4_record (ip a) p), (Z.land (ip a) (ip_int_from_prefix IPv4 p)),
    (Z.land (ip a) (ip_int_from_prefix IPv4 p) + (2 ^ (32 - p) - 1)).
  split; [now apply bounded_calculate_v4_fits|].
  split; [apply IPv4Address_print; lia|].
  split; [apply IPv4Address_print; lia|].
  split; [exact Hle|].
  rewrite Hdiv.
  pose proof (Z.mod_pos_bound (ip a) (2 ^ (32 - p)) Hpos).
  pose proof (Z.div_mod (ip a) (2 ^ (32 - p))). lia.
Qed.

Lemma address_within_network_witness :
  IPv4Address "172.16.0.5" = inr (address_of_int IPv4 2886729733)
  /\ 0 <= 20 <= 32
  /\ (31 <= 20 \/ 2 ^ (32 - 20) - 2 <= 100000)
  /\ exists (info : network_info) (net bcast : Z),
       Bounded.calculate_network_info 100000 "172.16.0.5" 20 = (Some info, [])
       /\ IPv4Address (network_address info) = inr (address_of_int IPv4 net)
       /\ IPv4Address (broadcast_address info) = inr (address_of_int IPv4 bcast)
       /\ net <= 2886729733 <= bcast.
Proof.
  split; [vm_compute; reflexivity|].
  split; [lia|].
  split; [right; vm_compute; discriminate|].
  apply (address_within_network
           100000 "172.16.0.5" (address_of_int IPv4 2886729733) 20);
    [vm_compute; reflexivity|lia|right; vm_compute; discriminate].
Defined.

(** X5. The reported network is an aligned block: the network address is a
    multiple of the total host count and the broadcast address is the last
    address of that block, network address + total hosts - 1. *)
Theorem network_is_aligned_block (capacity : Z) (s : string) (a : Address) (p : Z) :
  IPv4Address s = inr a -> 0 <= p <= 32 ->
  31 <= p \/ 2 ^ (32 - p) - 2 <= capacity ->
  exists (info : network_info) (net bcast : Z),
    Bounded.calculate_network_info capacity s p = (Some info, [])
    /\ IPv4Address (network_address info) = inr (address_of_int IPv4 net)
    /\ IPv4Address (broadcast_address info) = inr (address_of_int IPv4 bcast)
    /\ 0 < total_hosts info
    /\ net mod total_hosts info = 0
    /\ bcast = net + total_hosts info - 1.
Proof.
  intros Ha Hp Hfits.
  destruct (IPv4Address_canonical s a Ha) as (Hr & _).
  destruct (v4_network_range (ip a) p Hr Hp) as (H0 & Hle & Hlt & Hpos & _).
  pose proof (v4_network_div (ip a) p Hr Hp) as Hdiv.
  exists (v4_record (ip a) p), (Z.land (ip a) (ip_int_from_prefix IPv4 p)),
    (Z.land (ip a) (ip_int_from_prefix IPv4 p) + (2 ^ (32 - p) - 1)).
  split; [now apply bounded_calculate_v4_fits|].
  split; [apply IPv4Address_print; lia|].
  split; [apply IPv4Address_print; lia|].
  cbn [total_hosts v4_record].
  split; [exact Hpos|].
  split; [rewrite Hdiv; apply Z.mod_mul; lia|lia].
Qed.

Lemma network_is_aligned_block_witness :
  IPv4Address "172.16.0.5" = inr (address_of_int IPv4 2886729733)
  /\ 0 <= 20 <= 32
  /\ (31 <= 20 \/ 2 ^ (32 - 20) - 2 <= 100000)
  /\ exists (info : network_info) (net bcast : Z),
       Bounded.calculate_network_info 100000 "172.16.0.5" 20 = (Some info, [])
       /\ IPv4Address (network_address info) = inr (address_of_int IPv4 net)
       /\ IPv4Address (broadcast_address info) = inr (address_of_int IPv4 bcast)
       /\ 0 < total_hosts info
       /\ net mod total_hosts info = 0
       /\ bcast = net + total_hosts info - 1.
Proof.
  split; [vm_compute; reflexivity|].
  split; [lia|].
  split; [right; vm_compute; discriminate|].
  apply (network_is_aligned_block
           100000 "172.16.0.5" (address_of_int IPv4 2886729733) 20);
    [vm_compute; reflexivity|lia|right; vm_compute; discriminate].
Defined.

(** X6. The broadcast address has every host bit set and agrees with the
    network address on the bits of the mask, the mask being the one whose
    top prefix-length bits are set. *)
Theorem broadcast_sets_host_bits (capacity : Z) (s : string) (a : Address) (p : Z) :
  IPv4Address s = inr a -> 0 <= p <= 32 ->
  31 <= p \/ 2 ^ (32 - p) - 2 <= capacity ->
  exists (mask : Z) (info : network_info) (net bcast : Z),
    (forall i, 0 <= i -> Z.testbit mask i = (32 - p <=? i) && (i <? 32))
    /\ Bounded.calculate_network_info capacity s p = (Some info, [])
    /\ IPv4Address (network_address info) = inr (address_of_int IPv4 net)
    /\ IPv4Address (broadcast_address info) = inr (address_of_int IPv4 bcast)
    /\ Z.land bcast (complement IPv4 mask) = complement IPv4 mask
    /\ Z.land bcast mask = net.
Proof.
  intros Ha Hp Hfits.
  destruct (IPv4Address_canonical s a Ha) as (Hr & _).
  destruct (v4_network_range (ip a) p Hr Hp) as (H0 & Hle & Hlt & Hpos & Hor & Hand).
  destruct (prefix_facts p Hp) as (_ & _ & Hmask & _).
  destruct (mask_facts_of IPv4 p (Hmask IPv4)) as (Hdisj & _ & Hc & _).
  cbv zeta in Hdisj, Hc. rewrite Hc in Hdisj.
  set (m := ip_int_from_prefix IPv4 p) in *.
  exists m, (v4_record (ip a) p), (Z.land (ip a) m),
    (Z.land (ip a) m + (2 ^ (32 - p) - 1)).
  split; [intros i Hi; now apply v4_netmask_bits|].
  split; [now apply bounded_calculate_v4_fits|].
  split; [apply IPv4Address_print; lia|].
  split; [apply IPv4Address_print; lia|].
  rewrite Hor, !Z.land_lor_distr_l. split.
  - now rewrite Hand, Z.land_diag, Z.lor_0_l.
  - rewrite <- Z.land_assoc, Z.land_diag.
    rewrite (Z.land_comm (complement IPv4 m) m), Hdisj. apply Z.lor_0_r.
Qed.

Lemma broadcast_sets_host_bits_witness :
  IPv4Address "192.168.1.77" = inr (address_of_int IPv4 3232235853)
  /\ 0 <= 26 <= 32
  /\ (31 <= 26 \/ 2 ^ (32 - 26) - 2 <= 1000)
  /\ exists (mask : Z) (info : network_info) (net bcast : Z),
       (forall i, 0 <= i -> Z.testbit mask i = (32 - 26 <=? i) && (i <? 32))
       /\ Bounded.calculate_network_info 1000 "192.168.1.77" 26 = (Some info, [])
       /\ IPv4Address (network_address info) = inr (address_of_int IPv4 net)
       /\ IPv4Address (broadcast_address info) = inr (address_of_int IPv4 bcast)
       /\ Z.land bcast (complement IPv4 mask) = complement IPv4 mask
       /\ Z.land bcast mask = net.
Proof.
  split; [vm_compute; reflexivity|].
  split; [lia|].
  split; [right; vm_compute; discriminate|].
  apply (broadcast_sets_host_bits
           1000 "192.168.1.77" (address_of_int IPv4 3232235853) 26);
    [vm_compute; reflexivity|lia|right; vm_compute; discriminate].
Defined.



(** X8. With prefix length 0, on a machine that can hold the 2^32 - 2 hosts,
    the result does not depend on the address: every valid address lies in
    the one network 0.0.0.0 to 255.255.255.255 of 2^32 addresses. *)
Theorem prefix_zero_is_whole_space (capacity : Z) (s : string) (a : Address) :
  IPv4Address s = inr a -> 2 ^ 32 - 2 <= capacity ->
  Bounded.calculate_network_info capacity s 0 =
  (Some {| network_address := "0.0.0.0";
           broadcast_address := "255.255.255.255";
           first_usable_host := "0.0.0.1";
           last_usable_host := "255.255.255.254";
           total_hosts := 4294967296 |}, []).
Proof.
  intros Ha Hc.
  rewrite (bounded_calculate_v4_fits capacity s a 0 Ha) by (auto; lia).
  rewrite (v4_record_same_network (ip a) 0 0).
  - vm_compute. reflexivity.
  - change (ip_int_from_prefix IPv4 0) with 0. now rewrite !Z.land_0_r.
Qed.

Lemma prefix_zero_is_whole_space_witness :
  IPv4Address "172.16.0.5" = inr (address_of_int IPv4 2886729733)
  /\ 2 ^ 32 - 2 <= 4294967296
  /\ Bounded.calculate_network_info 4294967296 "172.16.0.5" 0 =
     (Some {| network_address := "0.0.0.0";
              broadcast_address := "255.255.255.255";
              first_usable_host := "0.0.0.1";
              last_usable_host := "255.255.255.254";
              total_hosts := 4294967296 |}, []).
Proof.
  split; [vm_compute; reflexivity|].
  split; [vm_compute; discriminate|].
  apply (prefix_zero_is_whole_space
           4294967296 "172.16.0.5" (address_of_int IPv4 2886729733));
    [vm_compute; reflexivity|vm_compute; discriminate].
Defined.

(** X9. When the address given has no host bit set, the network address
    reported is the address text itself, character for character. *)
Theorem aligned_address_is_echoed (capacity : Z) (s : string) (a : Address) (p : Z) :
  IPv4Address s = inr a -> 0 <= p <= 32 ->
  31 <= p \/ 2 ^ (32 - p) - 2 <= capacity ->
  Z.land (ip a) (ip_int_from_prefix IPv4 p) = ip a ->
  exists info : network_info,
    Bounded.calculate_network_info capacity s p = (Some info, [])
    /\ network_address info = s.
Proof.
  intros Ha Hp Hfits Haligned.
  destruct (IPv4Address_canonical s a Ha) as (_ & _ & Hs & _).
  exists (v4_record (ip a) p).
  split; [now apply bounded_calculate_v4_fits|].
  unfold v4_record. cbn [network_address]. now rewrite Haligned.
Qed.

Lemma aligned_address_is_echoed_witness :
  IPv4Address "192.168.4.0" = inr (address_of_int IPv4 3232236544)
  /\ 0 <= 22 <= 32
  /\ (31 <= 22 \/ 2 ^ (32 - 22) - 2 <= 100000)
  /\ Z.land 3232236544 (ip_int_from_prefix IPv4 22) = 3232236544
  /\ exists info : network_info,
       Bounded.calculate_network_info 100000 "192.168.4.0" 22 = (Some info, [])
       /\ network_address info = "192.168.4.0".
Proof.
  split; [vm_compute; reflexivity|].
  split; [lia|].
  split; [right; vm_compute; discriminate|].
  split; [vm_compute; reflexivity|].
  apply (aligned_address_is_echoed
           100000 "192.168.4.0" (address_of_int IPv4 3232236544) 22);
    [vm_compute; reflexivity|lia|right; vm_compute; discriminate
    |vm_compute; reflexivity].
Defined.

(** X11. Every address the calculation reports for IPv4 input can be given
    back to it: the network and broadcast fields are well-formed dotted
    quads, and each usable-host field is either the marker or a well-formed
    dotted quad. *)
Theorem reported_addresses_are_well_formed
  (capacity : Z) (s : string) (a : Address) (p : Z) :
  IPv4Address s = inr a -> 0 <= p <= 32 ->
  31 <= p \/ 2 ^ (32 - p) - 2 <= capacity ->
  exists info : network_info,
    Bounded.calculate_network_info capacity s p = (Some info, [])
    /\ dotted_quad (network_address info)
    /\ dotted_quad (broadcast_address info)
    /\ (first_usable_host info = NOT_APPLICABLE
        \/ dotted_quad (first_usable_host info))
    /\ (last_usable_host info = NOT_APPLICABLE
        \/ dotted_quad (last_usable_host info)).
Proof.
  intros Ha Hp Hfits.
  destruct (IPv4Address_canonical s a Ha) as (Hr & _).
  destruct (v4_network_range (ip a) p Hr Hp) as (H0 & Hle & Hlt & Hpos & _).
  pose proof (small_network p Hp) as Hsmall.
  assert (Hq : forall n, 0 <= n < 2 ^ 32 -> dotted_quad (v4_string_from_ip_int n)).
  { intros n Hn. apply dotted_quad_IPv4Address.
    eexists. now apply IPv4Address_print. }
  exists (v4_record (ip a) p).
  split; [now apply bounded_calculate_v4_fits|].
  unfold v4_record.
  cbn [network_address broadcast_address first_usable_host last_usable_host].
  split; [apply Hq; lia|]. split; [apply Hq; lia|].
  destruct (Z.leb_spec p 30) as [Hp30|Hp30]; [|now split; left].
  apply Hsmall in Hp30.
  split; right; apply Hq; lia.
Qed.

Lemma reported_addresses_are_well_formed_witness :
  IPv4Address "10.0.0.1" = inr (address_of_int IPv4 167772161)
  /\ 0 <= 30 <= 32
  /\ (31 <= 30 \/ 2 ^ (32 - 30) - 2 <= 1000)
  /\ exists info : network_info,
       Bounded.calculate_network_info 1000 "10.0.0.1" 30 = (Some info, [])
       /\ dotted_quad (network_address info)
       /\ dotted_quad (broadcast_address info)
       /\ (first_usable_host info = NOT_APPLICABLE
           \/ dotted_quad (first_usable_host info))
       /\ (last_usable_host info = NOT_APPLICABLE
           \/ dotted_quad (last_usable_host info)).
Proof.
  split; [vm_compute; reflexivity|].
  split; [lia|].
  split; [right; vm_compute; discriminate|].
  apply (reported_addresses_are_well_formed
           1000 "10.0.0.1" (address_of_int IPv4 167772161) 30);
    [vm_compute; reflexivity|lia|right; vm_compute; discriminate].
Defined.

(** X14. Once [parse_args] has returned the two arguments, a run of [main]
    ends in one of three ways and never mixes them: exit status 0 with
    exactly the five report lines on standard output; exit status 1 with one
    error record and one line on standard error naming the invalid input;
    or exit status 1 with the unexpected-error record and line after the
    host list exhausted the memory.  Nothing reaches standard output in the
    last two. *)
Theorem main_output_discipline (capacity : Z) (s : string) (p : Z) :
  (fst (Bounded.main capacity s p) = 0
   /\ exists info, snd (Bounded.main capacity s p) = report info)
  \/ (fst (Bounded.main capacity s p) = 1
      /\ exists msg1 msg2,
           snd (Bounded.main capacity s p) = [LogError msg1; Stderr msg2])
  \/ (fst (Bounded.main capacity s p) = 1
      /\ snd (Bounded.main capacity s p) = memory_failure).
Proof.
  unfold Bounded.main.
  destruct (ip_address s) as [msg|a];
    [right; left; split; [reflexivity|now do 2 eexists]|].
  unfold Bounded.calculate_network_info.
  destruct (Bounded.try_calculate capacity s p) as [e|info] eqn:E.
  - destruct (bounded_failure capacity s p e E) as [(msg & -> & _)| ->].
    + right; left. split; [reflexivity|now do 2 eexists].
    + right; right. split; reflexivity.
  - left. split; [reflexivity|now exists info].
Qed.

(** X16. Networks of one address nest as the prefix grows: for prefix
    lengths p <= q, on a machine that can hold the host list of p, the
    network computed with q lies inside the one computed with p. *)
Theorem shorter_prefix_contains_longer
  (capacity : Z) (s : string) (a : Address) (p q : Z) :
  IPv4Address s = inr a -> 0 <= p <= q -> q <= 32 ->
  31 <= p \/ 2 ^ (32 - p) - 2 <= capacity ->
  exists (info_p info_q : network_info) (net_p bcast_p net_q bcast_q : Z),
    Bounded.calculate_network_info capacity s p = (Some info_p, [])
    /\ Bounded.calculate_network_info capacity s q = (Some info_q, [])
    /\ IPv4Address (network_address info_p) = inr (address_of_int IPv4 net_p)
    /\ IPv4Address (broadcast_address info_p) = inr (address_of_int IPv4 bcast_p)
    /\ IPv4Address (network_address info_q) = inr (address_of_int IPv4 net_q)
    /\ IPv4Address (broadcast_address info_q) = inr (address_of_int IPv4 bcast_q)
    /\ net_p <= net_q /\ bcast_q <= bcast_p
    /\ total_hosts info_q <= total_hosts info_p.
Proof.
  intros Ha Hpq Hq Hfits.
  assert (Hp : 0 <= p <= 32) by lia. assert (Hq' : 0 <= q <= 32) by lia.
  assert (Hmono : 2 ^ (32 - q) <= 2 ^ (32 - p)) by (apply Z.pow_le_mono_r; lia).
  assert (Hfits' : 31 <= q \/ 2 ^ (32 - q) - 2 <= capacity) by lia.
  destruct (IPv4Address_canonical s a Ha) as (Hr & _).
  destruct (v4_network_range (ip a) p Hr Hp) as (P0 & _ & Plt & Ppos & _).
  destruct (v4_network_range (ip a) q Hr Hq') as (Q0 & _ & Qlt & Qpos & _).
  pose proof (v4_network_div (ip a) p Hr Hp) as Pdiv.
  pose proof (v4_network_div (ip a) q Hr Hq') as Qdiv.
  exists (v4_record (ip a) p), (v4_record (ip a) q),
    (Z.land (ip a) (ip_int_from_prefix IPv4 p)),
    (Z.land (ip a) (ip_int_from_prefix IPv4 p) + (2 ^ (32 - p) - 1)),
    (Z.land (ip a) (ip_int_from_prefix IPv4 q)),
    (Z.land (ip a) (ip_int_from_prefix IPv4 q) + (2 ^ (32 - q) - 1)).
  split; [now apply bounded_calculate_v4_fits|].
  split; [now apply bounded_calculate_v4_fits|].
  split; [apply IPv4Address_print; lia|]. split; [apply IPv4Address_print; lia|].
  split; [apply IPv4Address_print; lia|]. split; [apply IPv4Address_print; lia|].
  cbn [total_hosts v4_record].
  rewrite Pdiv, Qdiv. clear Hfits Hfits' Hmono.
  set (x := ip a) in *. set (L := 2 ^ (32 - q)) in *.
  assert (HK : 2 ^ (32 - p) = L * 2 ^ (q - p)).
  { unfold L. rewrite <- Z.pow_add_r by lia. f_equal. lia. }
  assert (HD : 0 < 2 ^ (q - p)) by (apply Z.pow_pos_nonneg; lia).
  rewrite HK. set (D := 2 ^ (q - p)) in *.
  pose proof (Z.div_mod x (L * D) ltac:(nia)) as E1.
  pose proof (Z.mod_pos_bound x (L * D) ltac:(nia)) as B1.
  pose proof (Z.div_mod x L ltac:(lia)) as E2.
  pose proof (Z.mod_pos_bound x L Qpos) as B2.
  set (u := x / (L * D)) in *. set (w := x / L) in *.
  assert (Hlow : u * D <= w) by (apply Z.div_le_lower_bound; nia).
  assert (Hhigh : w < u * D + D) by (apply Z.div_lt_upper_bound; nia).
  repeat split; nia.
Qed.

Lemma shorter_prefix_contains_longer_witness :
  IPv4Address "172.16.0.5" = inr (address_of_int IPv4 2886729733)
  /\ 0 <= 20 <= 24 /\ 24 <= 32
  /\ (31 <= 20 \/ 2 ^ (32 - 20) - 2 <= 100000)
  /\ exists (info_p info_q : network_info) (net_p bcast_p net_q bcast_q : Z),
       Bounded.calculate_network_info 100000 "172.16.0.5" 20 = (Some info_p, [])
       /\ Bounded.calculate_network_info 100000 "172.16.0.5" 24 = (Some info_q, [])
       /\ IPv4Address (network_address info_p) = inr (address_of_int IPv4 net_p)
       /\ IPv4Address (broadcast_address info_p) = inr (address_of_int IPv4 bcast_p)
       /\ IPv4Address (network_address info_q) = inr (address_of_int IPv4 net_q)
       /\ IPv4Address (broadcast_address info_q) = inr (address_of_int IPv4 bcast_q)
       /\ net_p <= net_q /\ bcast_q <= bcast_p
       /\ total_hosts info_q <= total_hosts info_p.
Proof.
  split; [vm_compute; reflexivity|].
  split; [lia|]. split; [lia|].
  split; [right; vm_compute; discriminate|].
  apply (shorter_prefix_contains_longer
           100000 "172.16.0.5" (address_of_int IPv4 2886729733) 20 24);
    [vm_compute; reflexivity|lia|lia|right; vm_compute; discriminate].
Defined.

End BoundedClaims.
